(** * Toga: backend resolution, the Cocoa location bridge and widget facades

    A shallow embedding of

    - [cocoa/src/toga_cocoa/hardware/geolocation.py] (the Cocoa location
      bridge: permission and location request queues, delegate callbacks),
    - [core/src/toga/platform.py] (backend resolution),
    - [core/src/toga/widgets/{slider,divider,detailedlist,splitcontainer}.py]
      (property getters and setters of the interface/peer pattern),

    followed by the properties established about them. *)

From Stdlib Require Import ZArith String Ascii List Floats.
From stdpp Require Import base option list gmap strings sorting.

Local Open Scope string_scope.
Local Open Scope list_scope.

(** ** Python exceptions and a state-and-exception monad *)

Module Py.

(** The exception classes the embedded code raises or lets through. *)
Inductive exn : Type :=
| PermissionError (msg : string)
| RuntimeError (msg : string)
| ModuleNotFoundError (msg : string)
| InvalidStateError
| IndexError
| OtherError (msg : string).

#[global] Instance exn_eq_dec : EqDecision exn.
Proof. solve_decision. Defined.

(** A Python method over a mutable object of type [S]: it returns a value
    or raises, and in both cases leaves the mutations made so far. *)
Definition M (S A : Type) : Type := S -> (exn + A) * S.

Definition ret {S A} (a : A) : M S A := fun s => (inr a, s).

Definition raise {S A} (e : exn) : M S A := fun s => (inl e, s).

Definition bind {S A B} (m : M S A) (k : A -> M S B) : M S B :=
  fun s =>
    match m s with
    | (inr a, s') => k a s'
    | (inl e, s') => (inl e, s')
    end.

Definition get {S} : M S S := fun s => (inr s, s).

Definition modify {S} (f : S -> S) : M S unit := fun s => (inr tt, f s).

(** [x[-1]] on a Python list: the last element, [IndexError] when empty. *)
Definition index_last {S A} (l : list A) : M S A :=
  match last l with
  | Some x => ret x
  | None => raise IndexError
  end.

End Py.

Declare Scope py_scope.
Delimit Scope py_scope with py.
Notation "x <- m ;; k" := (Py.bind m (fun x => k))
  (at level 100, m at next level, right associativity) : py_scope.
Notation "m ;;; k" := (Py.bind m (fun _ => k))
  (at level 100, right associativity) : py_scope.

(** ** The Cocoa location bridge ([toga_cocoa/hardware/geolocation.py]) *)

Module Geolocation.
Import Py.

(** Modelled from the spec: the enumeration [CLAuthorizationStatus] of
    [toga_cocoa.libs] is not among the sources.  Its members are the
    authorization states of the spec (undetermined, denied,
    foreground-granted, background-granted) under the names the code uses
    for them.  The code compares the [.value] of members, an injection
    into the integers, so comparing members is the same. *)
Inductive CLAuthorizationStatus : Type :=
| NotDetermined
| Denied
| AuthorizedWhenInUse
| AuthorizedAlways.

#[global] Instance CLAuthorizationStatus_eq_dec : EqDecision CLAuthorizationStatus.
Proof. solve_decision. Defined.

(** [toga.LatLng], a named tuple of two floats. *)
Record LatLng : Type := mkLatLng { lat : float; lng : float }.

(** The fields of a native [CLLocation] that the bridge reads. *)
Record CLLocationCoordinate2D : Type :=
  mkCoordinate { latitude : float; longitude : float }.

Record CLLocation : Type := mkCLLocation {
  coordinate : CLLocationCoordinate2D;
  verticalAccuracy : float;
  ellipsoidalAltitude : float
}.

(** The methods of the native [CLLocationManager] that the bridge calls;
    the manager is an external collaborator, so a call is recorded. *)
Inductive native_call : Type :=
| requestAlwaysAuthorization
| requestLocation
| startUpdatingLocation
| stopUpdatingLocation.

#[global] Instance native_call_eq_dec : EqDecision native_call.
Proof. solve_decision. Defined.

Record CLLocationManager : Type := mkManager {
  authorizationStatus : CLAuthorizationStatus;
  location : option CLLocation;
  calls : list native_call
}.

(** What a result cell can be settled with. *)
Inductive value : Type :=
| VBool (b : bool)
| VLatLng (l : LatLng).

Inductive outcome : Type :=
| Result (v : value)
| Exception (e : exn).

(** One invocation of the interface's [on_change] listener. *)
Record change : Type := mkChange {
  change_location : LatLng;
  change_altitude : option float
}.

(** The bridge object with the objects it shares with its callers.

    Result cells (futures) are objects shared between the bridge, which
    queues and settles them, and the callers awaiting them: a cell is a
    key, and [settled] is the store of the outcomes of the cells settled
    so far (a cell without an entry is pending).

    [permission_requests] and [location_requests] are Python lists used
    as stacks ([append], [pop()] at the same end): they are kept with the
    LAST element of the Python list FIRST. *)
Record t : Type := mkGeolocation {
  native : CLLocationManager;
  permission_requests : list nat;
  location_requests : list nat;
  settled : gmap nat outcome;
  on_change_calls : list change
}.

Definition set_native (f : CLLocationManager -> CLLocationManager) (self : t) : t :=
  mkGeolocation (f (native self)) (permission_requests self)
    (location_requests self) (settled self) (on_change_calls self).

Definition set_permission_requests (q : list nat) (self : t) : t :=
  mkGeolocation (native self) q (location_requests self) (settled self)
    (on_change_calls self).

Definition set_location_requests (q : list nat) (self : t) : t :=
  mkGeolocation (native self) (permission_requests self) q (settled self)
    (on_change_calls self).

Definition set_settled (h : gmap nat outcome) (self : t) : t :=
  mkGeolocation (native self) (permission_requests self)
    (location_requests self) h (on_change_calls self).

Definition set_on_change_calls (l : list change) (self : t) : t :=
  mkGeolocation (native self) (permission_requests self)
    (location_requests self) (settled self) l.

(** Modelled from the spec: the result-cell class ([LocationResult],
    [PermissionResult]) is not among the sources.  The spec makes a cell
    single-assignment: "a settled cell cannot be re-settled"; settling a
    settled cell raises, as the future underneath does. *)
Definition settle (future : nat) (o : outcome) : M t unit :=
  fun self =>
    match settled self !! future with
    | None => (inr tt, set_settled (<[future := o]> (settled self)) self)
    | Some _ => (inl InvalidStateError, self)
    end.

Definition set_result (future : nat) (v : value) : M t unit :=
  settle future (Result v).

Definition set_exception (future : nat) (e : exn) : M t unit :=
  settle future (Exception e).

(** A call of a method of [self.native]. *)
Definition call_native (c : native_call) : M t unit :=
  modify (set_native (fun n =>
    mkManager (authorizationStatus n) (location n) (calls n ++ [c]))).

(** [self.interface.on_change(location=..., altitude=...)]. *)
Definition on_change (location : LatLng) (altitude : option float) : M t unit :=
  modify (fun self =>
    set_on_change_calls (on_change_calls self ++ [mkChange location altitude]) self).

(** [has_permission(self, allow_unknown=False)]. *)
Definition has_permission (allow_unknown : bool) (self : t) : bool :=
  let valid_values := [AuthorizedAlways; AuthorizedWhenInUse] in
  let valid_values :=
    if allow_unknown then valid_values ++ [NotDetermined] else valid_values in
  bool_decide (authorizationStatus (native self) ∈ valid_values).

Definition has_background_permission (self : t) : bool :=
  bool_decide (authorizationStatus (native self) = AuthorizedAlways).

(** [while self.permission_requests: future = self.permission_requests.pop();
    body(future)].  The bodies below never touch the list itself, so the
    loop runs once over the list it finds, removing each cell before the
    body settles it. *)
Fixpoint while_permission_requests (body : nat -> M t unit) (pending : list nat)
  : M t unit :=
  match pending with
  | [] => ret tt
  | future :: rest =>
      (modify (set_permission_requests rest) ;;;
       body future ;;;
       while_permission_requests body rest)%py
  end.

(** The same loop over [self.location_requests]. *)
Fixpoint while_location_requests (body : nat -> M t unit) (pending : list nat)
  : M t unit :=
  match pending with
  | [] => ret tt
  | future :: rest =>
      (modify (set_location_requests rest) ;;;
       body future ;;;
       while_location_requests body rest)%py
  end.

Definition _authorization_change : M t unit :=
  (self <- get ;;
   while_permission_requests
     (fun future =>
        self <- get ;;
        set_result future (VBool (has_permission false self)))
     (permission_requests self))%py.

Definition _location_change (location : CLLocation) : M t unit :=
  let latlng :=
    mkLatLng (latitude (coordinate location)) (longitude (coordinate location)) in
  (* A vertical accuracy that non-positive indicates altitude is invalid. *)
  let altitude :=
    if PrimFloat.ltb 0%float (verticalAccuracy location)
    then Some (ellipsoidalAltitude location)
    else None in
  (self <- get ;;
   while_location_requests
     (fun future => set_result future (VLatLng latlng))
     (location_requests self) ;;;
   on_change latlng altitude)%py.

Definition _location_error (error : string) : M t unit :=
  (self <- get ;;
   while_location_requests
     (fun future =>
        set_exception future
          (RuntimeError ("Unable to obtain a location (" +:+ error +:+ ")")))
     (location_requests self))%py.

Definition request_permission (future : nat) : M t unit :=
  (self <- get ;;
   modify (set_permission_requests (future :: permission_requests self)) ;;;
   call_native requestAlwaysAuthorization)%py.

Definition request_background_permission (future : nat) : M t unit :=
  (self <- get ;;
   modify (set_permission_requests (future :: permission_requests self)) ;;;
   call_native requestAlwaysAuthorization)%py.

Definition current_location (result : nat) : M t unit :=
  (self <- get ;;
   if has_permission true self then
     match location (native self) with
     | None =>
         modify (set_location_requests (result :: location_requests self)) ;;;
         call_native requestLocation
     | Some location =>
         set_result result
           (VLatLng (mkLatLng (latitude (coordinate location))
                              (longitude (coordinate location))))
     end
   else
     raise (PermissionError
              "App does not have permission to use geolocation services"))%py.

Definition start : M t unit :=
  (self <- get ;;
   if has_permission true self then call_native startUpdatingLocation
   else
     raise (PermissionError
              "App does not have permission to use geolocation services"))%py.

Definition stop : M t unit :=
  (self <- get ;;
   if has_permission true self then call_native stopUpdatingLocation
   else
     raise (PermissionError
              "App does not have permission to use geolocation services"))%py.

(** The delegate, [TogaLocationDelegate]: the native manager calls these
    three methods, which forward to the bridge. *)
Definition locationManagerDidChangeAuthorization_ : M t unit :=
  _authorization_change.

Definition locationManager_didUpdateLocations_ (locations : list CLLocation)
  : M t unit :=
  (location <- index_last locations ;; _location_change location)%py.

Definition locationManager_didFailWithError_ (error : string) : M t unit :=
  _location_error error.

End Geolocation.


(** ** The interface-level location service *)

Module Location.
Import Py Geolocation.

(** Modelled from the spec: the interface-level service
    ([app.location], which the tests call without arguments) is not among
    the sources; only its Cocoa peer above is.  Spec, section 4.4:
    "[request_background_permission()]: precondition — fails immediately
    (fatal, not queued) if current state is [NoPermission] or [Denied];
    'cannot ask for background permission before confirming foreground
    permission.'  If foreground is granted, behaves like
    [request_permission()] but targeting the background-capable native
    call", where [request_permission()] "if already [...] granted,
    returns success immediately (no native call)".  The message is the
    one [testbed/tests/hardware/test_location.py] matches.  [result] is
    the fresh cell the service hands back to its caller. *)
Definition request_background_permission (result : nat) : M t unit :=
  (self <- get ;;
   if negb (has_permission false self) then
     raise (PermissionError
              ("Cannot ask for background location permission " +:+
               "before confirming foreground location permission."))
   else if has_background_permission self then
     set_result result (VBool true)
   else
     Geolocation.request_background_permission result)%py.

End Location.

(** ** Sample states of the location bridge *)

Module GeolocationSamples.
Import Geolocation.

Definition here : CLLocation :=
  mkCLLocation (mkCoordinate 37%float 42%float) 5%float 120%float.

Definition there : CLLocation :=
  mkCLLocation (mkCoordinate 42%float 37%float) (-1)%float 0%float.

Definition origin : CLLocation :=
  mkCLLocation (mkCoordinate 0%float 0%float) 0%float 0%float.

(** Permission granted, nothing cached, two requests queued (cells 1 and
    2, queued in that order). *)
Definition two_queued : t :=
  mkGeolocation
    (mkManager AuthorizedWhenInUse None [requestLocation; requestLocation])
    [] [2; 1] ∅ [].

(** A bridge just constructed on a device where the user has denied
    location access; tracking was never started. *)
Definition denied_idle : t :=
  mkGeolocation (mkManager Denied None []) [] [] ∅ [].

(** A bridge just constructed, before any permission request. *)
Definition undetermined_idle : t :=
  mkGeolocation (mkManager NotDetermined None []) [] [] ∅ [].

(** Permission granted and a location cached by the native manager. *)
Definition granted_cached : t :=
  mkGeolocation (mkManager AuthorizedWhenInUse (Some here) []) [] [] ∅ [].

(** Permission granted, nothing cached. *)
Definition granted_idle : t :=
  mkGeolocation (mkManager AuthorizedWhenInUse None []) [] [] ∅ [].

End GeolocationSamples.

(** ** Predicates on the states of the location bridge *)

Module GeolocationPredicates.
Import Py Geolocation.

(** A cell is pending when the store holds no outcome for it. *)
Definition pending (self : t) (future : nat) : Prop :=
  settled self !! future = None.

(** The queued location requests are distinct cells, none settled yet. *)
Definition queue_ok (self : t) : Prop :=
  NoDup (location_requests self) /\ Forall (pending self) (location_requests self).

(** The location a sample carries. *)
Definition latlng_of (L : CLLocation) : LatLng :=
  mkLatLng (latitude (coordinate L)) (longitude (coordinate L)).

(** The permission [current_location], [start] and [stop] ask for:
    undetermined or granted. *)
Definition undetermined_or_granted (st : CLAuthorizationStatus) : Prop :=
  st = NotDetermined \/ st = AuthorizedWhenInUse \/ st = AuthorizedAlways.

End GeolocationPredicates.

(** ** Call histories of the location bridge *)

Module History.
Import Py Geolocation GeolocationPredicates.

(** [Geolocation.__init__]: a new native manager (with the authorization
    status and the cached location the system has for the app), and two
    empty request lists. *)
Definition __init__ (status : CLAuthorizationStatus) (cached : option CLLocation) : t :=
  mkGeolocation (mkManager status cached []) [] [] ∅ [].

(** What can happen to a bridge: the interface calls one of its methods,
    or the system changes the native manager and calls the delegate. *)
Inductive event : Type :=
| request_permission_called (future : nat)
| request_background_permission_called (future : nat)
| current_location_called (result : nat)
| start_called
| stop_called
| authorization_changed (status : CLAuthorizationStatus)
| locations_updated (locations : list CLLocation)
| location_failed (error : string)
| location_cached (cached : option CLLocation).

Definition happen (e : event) : M t unit :=
  match e with
  | request_permission_called future => request_permission future
  | request_background_permission_called future => request_background_permission future
  | current_location_called result => current_location result
  | start_called => start
  | stop_called => stop
  | authorization_changed status =>
      (modify (set_native (fun n => mkManager status (location n) (calls n))) ;;;
       locationManagerDidChangeAuthorization_)%py
  | locations_updated locations => locationManager_didUpdateLocations_ locations
  | location_failed error => locationManager_didFailWithError_ error
  | location_cached cached =>
      modify (set_native (fun n => mkManager (authorizationStatus n) cached (calls n)))
  end.

(** An exception goes to the caller; the bridge lives on as it was left. *)
Definition after (e : event) (self : t) : t := (happen e self).2.

(** A cell just created: nobody has settled or queued it. *)
Definition fresh (self : t) (future : nat) : Prop :=
  settled self !! future = None
  /\ (future ∉ location_requests self)
  /\ (future ∉ permission_requests self).

(** The interface hands a new cell to every request. *)
Definition admissible (self : t) (e : event) : Prop :=
  match e with
  | request_permission_called future => fresh self future
  | request_background_permission_called future => fresh self future
  | current_location_called result => fresh self result
  | _ => True
  end.

Inductive reachable : t -> Prop :=
| reachable_init status cached : reachable (__init__ status cached)
| reachable_step self e :
    reachable self -> admissible self e -> reachable (after e self).

(** The cells in the two request lists are distinct and pending. *)
Definition bridge_ok (self : t) : Prop :=
  NoDup (location_requests self ++ permission_requests self)
  /\ Forall (pending self) (location_requests self ++ permission_requests self).

End History.

(** ** Backend resolution ([toga/platform.py]) *)

Module Platform.
Import Py.

(** Map python sys.platform with toga platforms names *)
Definition _TOGA_PLATFORMS : gmap string string :=
  list_to_map
    [("android", "android");
     ("darwin", "macOS");
     ("ios", "iOS");
     ("linux", "linux");
     ("freebsd", "freeBSD");
     ("tvos", "tvOS");
     ("watchos", "watchOS");
     ("wearos", "wearOS");
     ("emscripten", "web");
     ("win32", "windows")].

(** [get_current_platform()], as a function of what it reads from [sys]:
    whether [sys.getandroidapilevel] exists, and [sys.platform]. *)
Definition get_current_platform
    (has_getandroidapilevel : bool) (sys_platform : string) : option string :=
  if has_getandroidapilevel then Some "android"
  else if String.prefix "freebsd" sys_platform then Some "freeBSD"
  else _TOGA_PLATFORMS !! sys_platform.

(** An entry point of [importlib.metadata]: the backend descriptor.  Its
    [name] is the platform tag, its [value] the package of the backend. *)
Record EntryPoint : Type := mkEntryPoint {
  name : string;
  value : string;
  group : string
}.

#[global] Instance EntryPoint_eq_dec : EqDecision EntryPoint.
Proof. solve_decision. Defined.

(** Entry points are ordered as the tuples (name, value, group), strings
    being compared character by character. *)
Definition entry_compare (a b : EntryPoint) : comparison :=
  match String.compare (name a) (name b) with
  | Eq =>
      match String.compare (value a) (value b) with
      | Eq => String.compare (group a) (group b)
      | c => c
      end
  | c => c
  end.

Definition entry_le (a b : EntryPoint) : Prop := entry_compare a b <> Gt.

#[global] Instance entry_le_dec (a b : EntryPoint) : Decision (entry_le a b).
Proof. unfold entry_le. apply _. Defined.

(** [sorted(set(entry_points(group="toga.backends")))]; [installed] is
    what the plugin registry reports for the group, possibly with
    repetitions.  A set has no order of its own: the sort decides the
    order of the result. *)
Definition find_backends (installed : list EntryPoint) : list EntryPoint :=
  merge_sort entry_le (remove_dups installed).

(** A string occurs in another. *)
Definition occurs_in (part whole : string) : Prop :=
  exists before after, whole = before +:+ part +:+ after.

Section Resolver.

(** The module objects of the interpreter, and [importlib.import_module]:
    the factory module under a dotted name, or the exception the import
    raises. *)
Variable ModuleType : Type.
Variable import_module : string -> exn + ModuleType.

(** [repr] of a Python string (the [!r] conversion). *)
Variable repr : string -> string.

(** [repr] of [current_platform], a string or [None]. *)
Definition repr_platform (current_platform : option string) : string :=
  match current_platform with
  | Some p => repr p
  | None => "None"
  end.

Definition _backends_list (backends : list EntryPoint) : string :=
  String.concat ", "
    (map (fun backend => repr (value backend) +:+ " (" +:+ name backend +:+ ")")
         backends).

(** [importlib.import_module(f"{backend.value}.factory")] for the entry
    [backends[0]]. *)
Definition import_factory_of (backend : option EntryPoint) : exn + ModuleType :=
  match backend with
  | Some backend => import_module (value backend +:+ ".factory")
  | None => inl IndexError
  end.

(** [get_platform_factory()], as a function of what it reads: the
    process environment, the installed entry points and
    [current_platform].  ([@cache] keeps the first answer.) *)
Definition get_platform_factory
    (environ : gmap string string) (installed : list EntryPoint)
    (current_platform : option string) : exn + ModuleType :=
  match environ !! "TOGA_BACKEND" with
  | Some (String c rest as backend_value) =>
      match import_module (backend_value +:+ ".factory") with
      | inl (ModuleNotFoundError exc) =>
          let toga_backends_values :=
            String.concat ", "
              (map (fun backend => repr (value backend)) (find_backends installed)) in
          inl (RuntimeError
                 ("The backend specified by TOGA_BACKEND (" +:+ repr backend_value
                  +:+ ") could " +:+ "not be loaded (" +:+ exc
                  +:+ "). It should be one of: " +:+ toga_backends_values +:+ "."))
      | factory => factory
      end
  | _ =>
      let toga_backends := find_backends installed in
      match length toga_backends with
      | 0 => inl (RuntimeError "No Toga backend could be loaded.")
      | 1 => import_factory_of (toga_backends !! 0)
      | _ =>
          (* Multiple backends are installed: choose the one that
             matches the host platform *)
          let matching_backends :=
            filter (fun backend => Some (name backend) = current_platform)
                   toga_backends in
          match length matching_backends with
          | 0 =>
              inl (RuntimeError
                     ("Multiple Toga backends are installed " +:+
                      "(" +:+ _backends_list toga_backends +:+ "), but none of them "
                      +:+ "match your current platform ("
                      +:+ repr_platform current_platform +:+ "). "
                      +:+ "Install a backend for your current platform, or use "
                      +:+ "TOGA_BACKEND to specify a backend."))
          | 1 => import_factory_of (matching_backends !! 0)
          | _ =>
              inl (RuntimeError
                     ("Multiple candidate toga backends found: " +:+
                      "(" +:+ _backends_list matching_backends
                      +:+ "). Uninstall the "
                      +:+ "backends you don't require, or use TOGA_BACKEND to "
                      +:+ "specify a backend."))
          end
      end
  end.

End Resolver.

End Platform.

(** ** Sample installations *)

Module PlatformSamples.
Import Py Platform.

Definition gtk : EntryPoint := mkEntryPoint "linux" "toga_gtk" "toga.backends".
Definition qt : EntryPoint := mkEntryPoint "linux" "toga_qt" "toga.backends".
Definition cocoa : EntryPoint := mkEntryPoint "macOS" "toga_cocoa" "toga.backends".
Definition dummy : EntryPoint := mkEntryPoint "dummy" "toga_dummy" "toga.backends".

(** An interpreter in which every backend package can be imported: the
    module object is the dotted name. *)
Definition import_any (dotted : string) : exn + string := inr dotted.

(** [repr] on strings without quotes, backslashes or control characters. *)
Definition repr_plain (s : string) : string := "'" +:+ s +:+ "'".

End PlatformSamples.

(** ** Widget facades ([toga/widgets/*.py]) *)

Module Widgets.
Import Py.

(** Python values handed to, or held by, a widget: [None], booleans,
    numbers, strings, and references to other objects (handlers, sources,
    widgets) by identity. *)
Inductive object : Type :=
| PyNone
| PyBool (b : bool)
| PyInt (z : Z)
| PyStr (s : string)
| PyRef (id : nat).

#[global] Instance object_eq_dec : EqDecision object.
Proof. solve_decision. Defined.

(** [toga.constants.Direction]. *)
Inductive Direction : Type := HORIZONTAL | VERTICAL.

(** The methods of a native peer that the code below calls, and
    [set_enabled], through which an [enabled] assignment reaches a peer. *)
Inductive peer_call : Type :=
| get_value
| get_range
| get_tick_count
| get_direction
| set_enabled (value : bool).

(** A native peer ([self._impl]): the state [N] of the native widget,
    which the user and the platform change behind the interface's back,
    and the calls made to the peer so far.  A [get_...] method answers
    from the native state as it is when called. *)
Record Peer (N : Type) : Type := mkPeer {
  native : N;
  calls : list peer_call
}.
Arguments mkPeer {N} _ _.
Arguments native {N} _.
Arguments calls {N} _.

Definition peer_get {N A : Type} (method : peer_call) (field : N -> A)
  : M (Peer N) A :=
  fun impl => (inr (field (native impl)), mkPeer (native impl) (calls impl ++ [method])).

(** *** [slider.py] *)
Module Slider.

Record Native : Type := mkNative {
  native_value : float;
  native_range : float * float;
  native_tick_count : option Z
}.

Record t : Type := mkSlider {
  attrs : gmap string object;   (* attributes of the base [Widget] *)
  _on_change : object;
  _on_press : object;
  _on_release : object;
  _impl : Peer Native
}.

Definition set_impl (impl : Peer Native) (self : t) : t :=
  mkSlider (attrs self) (_on_change self) (_on_press self) (_on_release self) impl.

(** A call of a method of [self._impl]. *)
Definition on_impl {A} (m : M (Peer Native) A) : M t A :=
  fun self => let (r, impl) := m (_impl self) in (r, set_impl impl self).

Definition value : M t float := on_impl (peer_get get_value native_value).

Definition range : M t (float * float) := on_impl (peer_get get_range native_range).

Definition min : M t float := (r <- range ;; ret (fst r))%py.

Definition max : M t float := (r <- range ;; ret (snd r))%py.

Definition tick_count : M t (option Z) :=
  on_impl (peer_get get_tick_count native_tick_count).

Definition on_change : M t object := (self <- get ;; ret (_on_change self))%py.

Definition on_press : M t object := (self <- get ;; ret (_on_press self))%py.

Definition on_release : M t object := (self <- get ;; ret (_on_release self))%py.

End Slider.

(** *** [divider.py] *)
Module Divider.

Record Native : Type := mkNative { native_direction : Direction }.

Record t : Type := mkDivider {
  attrs : gmap string object;
  _impl : Peer Native
}.

Definition set_impl (impl : Peer Native) (self : t) : t :=
  mkDivider (attrs self) impl.

Definition on_impl {A} (m : M (Peer Native) A) : M t A :=
  fun self => let (r, impl) := m (_impl self) in (r, set_impl impl self).

Definition enabled : M t bool := ret true.

Definition enabled_setter (value : object) : M t unit := ret tt.

Definition focus : M t unit := ret tt.

Definition direction : M t Direction :=
  on_impl (peer_get get_direction native_direction).

End Divider.

(** *** [detailedlist.py] *)
Module DetailedList.

(** The native list shows the rows of some source. *)
Record Native : Type := mkNative { native_source : object }.

Record t : Type := mkDetailedList {
  attrs : gmap string object;
  _accessors : string * string * string;
  _missing_value : string;
  _primary_action : object;
  _secondary_action : object;
  _data : object;
  _on_primary_action : object;
  _on_secondary_action : object;
  _on_refresh : object;
  _on_select : object;
  _impl : Peer Native
}.

Definition set_impl (impl : Peer Native) (self : t) : t :=
  mkDetailedList (attrs self) (_accessors self) (_missing_value self)
    (_primary_action self) (_secondary_action self) (_data self)
    (_on_primary_action self) (_on_secondary_action self) (_on_refresh self)
    (_on_select self) impl.

Definition enabled : M t bool := ret true.

Definition enabled_setter (value : object) : M t unit := ret tt.

Definition focus : M t unit := ret tt.

Definition data : M t object := (self <- get ;; ret (_data self))%py.

Definition accessors : M t (string * string * string) :=
  (self <- get ;; ret (_accessors self))%py.

Definition missing_value : M t string :=
  (self <- get ;; ret (_missing_value self))%py.

Definition on_primary_action : M t object :=
  (self <- get ;; ret (_on_primary_action self))%py.

Definition on_secondary_action : M t object :=
  (self <- get ;; ret (_on_secondary_action self))%py.

Definition on_refresh : M t object := (self <- get ;; ret (_on_refresh self))%py.

Definition on_select : M t object := (self <- get ;; ret (_on_select self))%py.

End DetailedList.

(** *** [splitcontainer.py] *)
Module SplitContainer.

(** The native split view shows two panels (peers of widgets, or
    nothing) in some direction. *)
Record Native : Type := mkNative {
  native_direction : Direction;
  native_content : list object
}.

Record t : Type := mkSplitContainer {
  attrs : gmap string object;
  _content : list object;
  _impl : Peer Native
}.

Definition set_impl (impl : Peer Native) (self : t) : t :=
  mkSplitContainer (attrs self) (_content self) impl.

Definition on_impl {A} (m : M (Peer Native) A) : M t A :=
  fun self => let (r, impl) := m (_impl self) in (r, set_impl impl self).

Definition enabled : M t bool := ret true.

Definition enabled_setter (value : object) : M t unit := ret tt.

Definition focus : M t unit := ret tt.

Definition content : M t (list object) := (self <- get ;; ret (_content self))%py.

Definition direction : M t Direction :=
  on_impl (peer_get get_direction native_direction).

End SplitContainer.

(** A getter reads from the peer: each call asks the peer once, and the
    answer is the native state's, as it is at the time of the call. *)
Definition reads_from_peer {W N A : Type}
    (impl : W -> Peer N) (getter : M W A) : Prop :=
  exists (method : peer_call) (field : N -> A),
    forall self : W,
      (getter self).1 = inr (field (native (impl self)))
      /\ calls (impl (getter self).2) = calls (impl self) ++ [method].

(** A getter answers from the interface object: it leaves the widget and
    its peer as they are (no call reaches the peer), and the answer is the
    same whatever the peer and its native state are. *)
Definition held_on_interface {W N A : Type}
    (set_impl : Peer N -> W -> W) (getter : M W A) : Prop :=
  forall self : W,
    (getter self).2 = self
    /\ forall impl : Peer N, (getter (set_impl impl self)).1 = (getter self).1.

End Widgets.

(** ** Sample widgets *)

Module WidgetSamples.
Import Widgets.

(** A list whose interface object holds the source object 1, with no
    handlers, while its native list shows another source (object 2). *)
Definition contacts : DetailedList.t :=
  DetailedList.mkDetailedList ∅ ("title", "subtitle", "icon") ""
    (PyStr "Delete") (PyStr "Action") (PyRef 1) PyNone PyNone PyNone PyNone
    (mkPeer (DetailedList.mkNative (PyRef 2)) []).

(** A split container whose interface object holds the widgets 3 and 4,
    while its native view shows two empty panels. *)
Definition panes : SplitContainer.t :=
  SplitContainer.mkSplitContainer ∅ [PyRef 3; PyRef 4]
    (mkPeer (SplitContainer.mkNative VERTICAL [PyNone; PyNone]) []).

Definition rule : Divider.t :=
  Divider.mkDivider ∅ (mkPeer (Divider.mkNative HORIZONTAL) []).

(** A slider over (0, 10) that the user has dragged to 7. *)
Definition volume : Slider.t :=
  Slider.mkSlider ∅ PyNone PyNone PyNone
    (mkPeer (Slider.mkNative 7%float (0%float, 10%float) None) []).

End WidgetSamples.

(** ** Widget methods with arguments ([detailedlist.py], [slider.py],
    [splitcontainer.py]) *)

Module DetailedListScroll.
Import Py Widgets.

(** A list widget together with the record of the [scroll_to_row] calls
    its peer has received. *)
Record t : Type := mkScroll {
  widget : DetailedList.t;
  scroll_to_row_calls : list Z
}.

(** A property or method of the widget itself. *)
Definition on_widget {A} (m : M DetailedList.t A) : M t A :=
  fun self =>
    let (r, w) := m (widget self) in (r, mkScroll w (scroll_to_row_calls self)).

(** [self._impl.scroll_to_row(row)]. *)
Definition impl_scroll_to_row (row : Z) : M t unit :=
  modify (fun self => mkScroll (widget self) (scroll_to_row_calls self ++ [row])).

Section Source.

(** [len()] of a source object: the number of its rows when asked.  (The
    source classes are not among the sources.) *)
Variable len : object -> nat.

Definition scroll_to_row (row : Z) : M t unit :=
  (data <- on_widget DetailedList.data ;;
   if (1 <? Z.of_nat (len data))%Z then
     if (0 <=? row)%Z then
       data <- on_widget DetailedList.data ;;
       impl_scroll_to_row (Z.min row (Z.of_nat (len data)))
     else
       data <- on_widget DetailedList.data ;;
       impl_scroll_to_row (Z.max (Z.of_nat (len data) + row) 0)
   else ret tt)%py.

Definition scroll_to_top : M t unit := scroll_to_row 0.

Definition scroll_to_bottom : M t unit := scroll_to_row (-1).

End Source.

End DetailedListScroll.

Module SliderChange.
Import Py Widgets.

Definition set__on_change (handler : object) (self : Slider.t) : Slider.t :=
  Slider.mkSlider (Slider.attrs self) handler (Slider._on_press self)
    (Slider._on_release self) (Slider._impl self).

(** [with self._suppress_change(): body].  The context manager is a
    generator without [try]/[finally]: when the body raises, the exception
    is thrown into the generator at its [yield] and the line after the
    [yield] is not run. *)
Definition _suppress_change {A} (body : M Slider.t A) : M Slider.t A :=
  (self <- get ;;
   let on_change := Slider._on_change self in
   modify (set__on_change PyNone) ;;;
   r <- body ;;
   modify (set__on_change on_change) ;;;
   ret r)%py.

End SliderChange.

Module SplitContainerContent.
Import Py Widgets.

(** [ValueError(msg)], by the text Python prints for it. *)
Definition ValueError (msg : string) : exn := OtherError ("ValueError: " +:+ msg).

(** A flex value: an [int] or a [float]. *)
Inductive number : Type :=
| Int (z : Z)
| Float (f : float).

(** [x <= 0]. *)
Definition le_zero (x : number) : bool :=
  match x with
  | Int z => (z <=? 0)%Z
  | Float f => PrimFloat.leb f 0%float
  end.

(** An element of the sequence assigned to [content]: a widget (known by
    its identity) or [None]; a 2-tuple of a widget (or [None]) and a flex
    value; or a tuple of another length. *)
Inductive item : Type :=
| Plain (widget : option nat)
| Pair (widget : option nat) (flex_value : number)
| Tuple (size : nat).

(** What the setter does to other objects: the children ([widget.app =
    self.app], [widget.window = self.window]), the peer
    ([self._impl.set_content(...)], which receives the children's peers and
    the flex values), and the base class ([self.refresh()]).  What the
    peer then does to the native view is the backend's business. *)
Inductive effect : Type :=
| app_assigned (widget : nat)
| window_assigned (widget : nat)
| impl_set_content (content : list (option nat)) (flex : list number)
| refreshed.

Record t : Type := mkContent {
  container : SplitContainer.t;
  effects : list effect
}.

Definition do (e : effect) : M t unit :=
  modify (fun self => mkContent (container self) (effects self ++ [e])).

(** A widget as a value held in [_content]. *)
Definition to_object (widget : option nat) : object :=
  match widget with
  | Some w => PyRef w
  | None => PyNone
  end.

Definition set__content (_content : list (option nat)) (self : t) : t :=
  mkContent
    (SplitContainer.mkSplitContainer (SplitContainer.attrs (container self))
       (map to_object _content) (SplitContainer._impl (container self)))
    (effects self).

(** The body of [for item in content:], with the two lists built so far.
    In [if widget:] a widget counts as true and [None] as false. *)
Fixpoint for_item_in (content : list item)
    (_content : list (option nat)) (flex : list number)
  : M t (list (option nat) * list number) :=
  match content with
  | [] => ret (_content, flex)
  | item :: rest =>
      (r <- match item with
            | Pair widget flex_value =>
                if le_zero flex_value then
                  raise (ValueError
                           "The flex value for an item in a SplitContainer must be >0")
                else ret (widget, flex_value)
            | Tuple _ =>
                raise (ValueError
                         ("An item in SplitContainer content must be a 2-tuple " +:+
                          "containing the widget, and the flex weight to assign to that "
                          +:+ "widget."))
            | Plain widget => ret (widget, Int 1)
            end ;;
       match r.1 with
       | Some w => do (app_assigned w) ;;; do (window_assigned w)
       | None => ret tt
       end ;;;
       for_item_in rest (_content ++ [r.1]) (flex ++ [r.2]))%py
  end.

(** The setter of [content]. *)
Definition content_setter (content : list item) : M t unit :=
  if negb (Nat.eqb (length content) 2) then
    raise (ValueError
             "SplitContainer content must be a sequence with exactly 2 elements")
  else
    (r <- for_item_in content [] [] ;;
     do (impl_set_content r.1 r.2) ;;;
     modify (set__content r.1) ;;;
     do refreshed)%py.

(** The getter, on the container with its record of effects. *)
Definition content : M t (list object) :=
  fun self =>
    let (r, c) := SplitContainer.content (container self) in
    (r, mkContent c (effects self)).

(** What an accepted item contributes. *)
Definition widget_of (i : item) : option nat :=
  match i with
  | Plain widget => widget
  | Pair widget _ => widget
  | Tuple _ => None
  end.

Definition flex_of (i : item) : number :=
  match i with
  | Pair _ flex_value => flex_value
  | _ => Int 1
  end.

Definition assignments (i : item) : list effect :=
  match widget_of i with
  | Some w => [app_assigned w; window_assigned w]
  | None => []
  end.

(** An item the setter accepts: no tuple of another length, no flex value
    at or below zero. *)
Definition accepted (i : item) : Prop :=
  match i with
  | Plain _ => True
  | Pair _ flex_value => le_zero flex_value = false
  | Tuple _ => False
  end.

End SplitContainerContent.

(** ** Sample contents *)

Module ActionSamples.
Import Widgets.

Definition contacts_view : DetailedListScroll.t :=
  DetailedListScroll.mkScroll WidgetSamples.contacts [].

(** The source object 1 has ten rows. *)
Definition ten_rows (source : object) : nat := 10.

Definition panes_world : SplitContainerContent.t :=
  SplitContainerContent.mkContent WidgetSamples.panes [].

End ActionSamples.
(** ** Properties of the location bridge *)

Module GeolocationFacts.
Import Py Geolocation GeolocationPredicates.

Lemma settle_pending future o self :
  pending self future ->
  settle future o self = (inr tt, set_settled (<[future := o]> (settled self)) self).
Proof. unfold pending, settle. intros ->. reflexivity. Qed.

Lemma settle_settled future o o' self :
  settled self !! future = Some o' ->
  settle future o self = (inl InvalidStateError, self).
Proof. unfold settle. intros ->. reflexivity. Qed.

(** Settling a cell leaves both request lists as they are: inside the
    loops, the list in the object is the list still to be gone through. *)
Lemma settle_keeps_lists future o (self : t) :
  location_requests (settle future o self).2 = location_requests self
  /\ permission_requests (settle future o self).2 = permission_requests self.
Proof. unfold settle. destruct (settled self !! future); split; reflexivity. Qed.

(** One turn of the loop. *)
Lemma while_location_requests_cons body f q (self : t) :
  while_location_requests body (f :: q) self =
    match body f (set_location_requests q self) with
    | (inr _, s) => while_location_requests body q s
    | (inl e, s) => (inl e, s)
    end.
Proof. reflexivity. Qed.

(** The loop over distinct pending cells: it returns normally, leaves the
    list empty, gives every cell of the list the outcome [o], and touches
    nothing else. *)
Lemma while_location_requests_settle o (q : list nat) :
  forall self : t,
    NoDup q -> Forall (pending self) q ->
    exists self',
      while_location_requests (fun future => settle future o) q self = (inr tt, self')
      /\ location_requests self' = match q with [] => location_requests self | _ => [] end
      /\ (forall f, f ∈ q -> settled self' !! f = Some o)
      /\ (forall f, f ∉ q -> settled self' !! f = settled self !! f)
      /\ native self' = native self
      /\ permission_requests self' = permission_requests self
      /\ on_change_calls self' = on_change_calls self.
Proof.
  induction q as [|f q IH]; intros self Hnd Hp.
  - exists self. simpl. unfold ret. repeat split; auto.
    intros f Hf. inversion Hf.
  - apply NoDup_cons in Hnd as [Hf Hnd].
    apply Forall_cons in Hp as [Hpf Hp].
    set (s1 := set_location_requests q self).
    assert (Hpf1 : pending s1 f) by exact Hpf.
    set (s2 := set_settled (<[f := o]> (settled s1)) s1).
    assert (Hp2 : Forall (pending s2) q).
    { rewrite Forall_forall in Hp |- *. intros g Hg. unfold pending, s2. simpl.
      rewrite lookup_insert_ne; [apply Hp, Hg|]. intros ->. contradiction. }
    destruct (IH s2 Hnd Hp2) as (s' & Hrun & Hq & Hin & Hout & Hn & Hpr & Hoc).
    exists s'. split; [|repeat split].
    + simpl. unfold bind at 1. unfold modify at 1. fold s1.
      unfold bind at 1. rewrite (settle_pending _ _ _ Hpf1). fold s2. exact Hrun.
    + rewrite Hq. destruct q; reflexivity.
    + intros g Hg. apply elem_of_cons in Hg as [->|Hg]; [|auto].
      rewrite Hout by exact Hf. unfold s2. simpl. apply lookup_insert_eq.
    + intros g Hg. apply not_elem_of_cons in Hg as [Hne Hg].
      rewrite Hout by exact Hg. unfold s2. simpl. apply lookup_insert_ne. auto.
    + rewrite Hn. reflexivity.
    + rewrite Hpr. reflexivity.
    + rewrite Hoc. reflexivity.
Qed.

(** Whatever the list and the outcome, and whether or not a cell in it
    turns out to be settled already, the loop calls neither the listener
    nor the native manager. *)
Lemma while_location_requests_frame o (q : list nat) :
  forall self : t,
    let self' := (while_location_requests (fun future => settle future o) q self).2 in
    on_change_calls self' = on_change_calls self /\ native self' = native self.
Proof.
  induction q as [|f q IH]; intros self self'; subst self'; [simpl; auto|].
  rewrite while_location_requests_cons.
  destruct (settled (set_location_requests q self) !! f) eqn:E.
  - rewrite (settle_settled _ _ _ _ E). simpl. auto.
  - rewrite (settle_pending _ _ _ E).
    apply (IH (set_settled (<[f:=o]> (settled self)) (set_location_requests q self))).
Qed.

(** The success callback: the loop, then the listener. *)
Lemma location_change_unfold (L : CLLocation) (self : t) :
  _location_change L self =
    match while_location_requests
            (fun future => settle future (Result (VLatLng (latlng_of L))))
            (location_requests self) self with
    | (inr _, s) =>
        on_change (latlng_of L)
          (if PrimFloat.ltb 0%float (verticalAccuracy L)
           then Some (ellipsoidalAltitude L) else None) s
    | (inl e, s) => (inl e, s)
    end.
Proof. reflexivity. Qed.

(** The effect of a success callback on a well-formed queue. *)
Lemma location_change_ok (self : t) (L : CLLocation) :
  queue_ok self ->
  exists self',
    _location_change L self = (inr tt, self')
    /\ location_requests self' = []
    /\ (forall f, f ∈ location_requests self ->
          settled self' !! f = Some (Result (VLatLng (latlng_of L))))
    /\ (forall f, f ∉ location_requests self -> settled self' !! f = settled self !! f)
    /\ on_change_calls self' =
         on_change_calls self ++
           [mkChange (latlng_of L)
              (if PrimFloat.ltb 0%float (verticalAccuracy L)
               then Some (ellipsoidalAltitude L) else None)]
    /\ native self' = native self
    /\ permission_requests self' = permission_requests self.
Proof.
  intros [Hnd Hp].
  destruct (while_location_requests_settle (Result (VLatLng (latlng_of L))) _ self Hnd Hp)
    as (s' & Hrun & Hq & Hin & Hout & Hn & Hpr & Hoc).
  eexists. split.
  - unfold _location_change, set_result. unfold bind at 1. unfold get at 1.
    unfold bind at 1. fold (latlng_of L). rewrite Hrun. reflexivity.
  - simpl. rewrite Hoc. repeat split; auto.
    rewrite Hq. destruct (location_requests self); reflexivity.
Qed.

(** The effect of a failure callback on a well-formed queue. *)
Lemma location_error_ok (self : t) (error : string) :
  queue_ok self ->
  exists self',
    _location_error error self = (inr tt, self')
    /\ location_requests self' = []
    /\ (forall f, f ∈ location_requests self ->
          settled self' !! f =
            Some (Exception
                    (RuntimeError ("Unable to obtain a location (" +:+ error +:+ ")"))))
    /\ (forall f, f ∉ location_requests self -> settled self' !! f = settled self !! f)
    /\ on_change_calls self' = on_change_calls self
    /\ native self' = native self
    /\ permission_requests self' = permission_requests self.
Proof.
  intros [Hnd Hp].
  destruct (while_location_requests_settle
              (Exception (RuntimeError ("Unable to obtain a location (" +:+ error +:+ ")")))
              _ self Hnd Hp)
    as (s' & Hrun & Hq & Hin & Hout & Hn & Hpr & Hoc).
  exists s'. split.
  - unfold _location_error, set_exception. unfold bind, get. exact Hrun.
  - repeat split; auto.
    rewrite Hq. destruct (location_requests self); reflexivity.
Qed.

Lemma queue_ok_two_queued : queue_ok GeolocationSamples.two_queued.
Proof.
  split; simpl.
  - apply NoDup_cons. split; [|apply NoDup_singleton].
    intros H. apply list_elem_of_singleton in H. discriminate H.
  - repeat constructor.
Defined.

(** C1. When the native success callback fires while N location requests
    are queued, for any N from 0 up, the callback returns normally, each of
    the N queued cells is settled with the one location the callback
    carries, the queue is left empty, and the change listener is invoked
    exactly once, with that location (not once per request). *)
Theorem location_change_settles_every_request (N : nat) (self : t) (L : CLLocation) :
  queue_ok self ->
  length (location_requests self) = N ->
  exists self' altitude,
    _location_change L self = (inr tt, self')
    /\ location_requests self' = []
    /\ (forall i, i < N ->
          exists future,
            location_requests self !! i = Some future
            /\ settled self' !! future = Some (Result (VLatLng (latlng_of L))))
    /\ on_change_calls self' =
         on_change_calls self ++ [mkChange (latlng_of L) altitude].
Proof.
  intros Hok HN.
  destruct (location_change_ok self L Hok) as (s' & Hrun & Hq & Hin & _ & Hoc & _).
  exists s'. eexists. split; [exact Hrun|]. split; [exact Hq|]. split; [|exact Hoc].
  intros i Hi. rewrite <- HN in Hi.
  destruct (lookup_lt_is_Some_2 _ _ Hi) as [future Hfuture].
  exists future. split; [exact Hfuture|].
  apply Hin. apply list_elem_of_lookup. exists i. exact Hfuture.
Qed.

Lemma location_change_settles_every_request_witness :
  queue_ok GeolocationSamples.two_queued
  /\ length (location_requests GeolocationSamples.two_queued) = 2
  /\ exists self' altitude,
       _location_change GeolocationSamples.here GeolocationSamples.two_queued
         = (inr tt, self')
       /\ location_requests self' = []
       /\ (forall i, i < 2 ->
             exists future,
               [2; 1] !! i = Some future
               /\ settled self' !! future
                  = Some (Result (VLatLng (mkLatLng 37%float 42%float))))
       /\ on_change_calls self' = [] ++ [mkChange (mkLatLng 37%float 42%float) altitude].
Proof.
  split; [exact queue_ok_two_queued|]. split; [reflexivity|].
  exact (location_change_settles_every_request 2
           GeolocationSamples.two_queued GeolocationSamples.here
           queue_ok_two_queued eq_refl).
Defined.

(** C4. When one native callback delivers a batch of several updates, the
    bridge behaves exactly as if the callback had carried the last update
    alone: the earlier entries play no part.  On a well-formed queue the
    pending requests are all resolved with the last update's location and
    the listener is invoked once, with the last update. *)
Theorem didUpdateLocations_uses_last_of_batch
    (self : t) (earlier : list CLLocation) (L : CLLocation) :
  locationManager_didUpdateLocations_ (earlier ++ [L]) self = _location_change L self
  /\ (queue_ok self ->
      exists self',
        locationManager_didUpdateLocations_ (earlier ++ [L]) self = (inr tt, self')
        /\ (forall f, f ∈ location_requests self ->
              settled self' !! f = Some (Result (VLatLng (latlng_of L))))
        /\ on_change_calls self' =
             on_change_calls self ++
               [mkChange (latlng_of L)
                  (if PrimFloat.ltb 0%float (verticalAccuracy L)
                   then Some (ellipsoidalAltitude L) else None)]).
Proof.
  assert (Heq : locationManager_didUpdateLocations_ (earlier ++ [L]) self
                = _location_change L self).
  { unfold locationManager_didUpdateLocations_, index_last.
    rewrite last_snoc. reflexivity. }
  split; [exact Heq|].
  intros Hok. rewrite Heq.
  destruct (location_change_ok self L Hok) as (s' & Hrun & Hq & Hin & _ & Hoc & _).
  exists s'. repeat split; auto.
Qed.

Lemma didUpdateLocations_uses_last_of_batch_witness :
  locationManager_didUpdateLocations_
    ([GeolocationSamples.origin] ++ [GeolocationSamples.here]) GeolocationSamples.two_queued
  = _location_change GeolocationSamples.here GeolocationSamples.two_queued
  /\ exists self',
       locationManager_didUpdateLocations_
         ([GeolocationSamples.origin] ++ [GeolocationSamples.here])
         GeolocationSamples.two_queued = (inr tt, self')
       /\ (forall f, f ∈ [2; 1] ->
             settled self' !! f = Some (Result (VLatLng (mkLatLng 37%float 42%float))))
       /\ on_change_calls self' =
            [] ++ [mkChange (mkLatLng 37%float 42%float) (Some 120%float)].
Proof.
  destruct (didUpdateLocations_uses_last_of_batch
              GeolocationSamples.two_queued [GeolocationSamples.origin]
              GeolocationSamples.here) as [Heq Hres].
  split; [exact Heq|exact (Hres queue_ok_two_queued)].
Defined.

(** C5. When the native failure callback fires, the callback returns
    normally (so no settled cell was settled again: that raises
    [InvalidStateError]), every pending location request is settled with
    a failure that describes the native error, the queue is left empty, no
    other cell is touched, and the change listener is not invoked.  A
    further failure callback then finds nothing to settle. *)
Theorem location_error_fails_every_request (self : t) (error : string) :
  queue_ok self ->
  exists self',
    _location_error error self = (inr tt, self')
    /\ location_requests self' = []
    /\ (forall f, f ∈ location_requests self ->
          settled self' !! f =
            Some (Exception
                    (RuntimeError ("Unable to obtain a location (" +:+ error +:+ ")"))))
    /\ (forall f, f ∉ location_requests self -> settled self' !! f = settled self !! f)
    /\ on_change_calls self' = on_change_calls self
    /\ (forall error', _location_error error' self' = (inr tt, self')).
Proof.
  intros Hok.
  destruct (location_error_ok self error Hok)
    as (s' & Hrun & Hq & Hin & Hout & Hoc & _).
  exists s'. repeat split; auto.
  intros error'. unfold _location_error, bind, get. rewrite Hq. reflexivity.
Qed.

Lemma location_error_fails_every_request_witness :
  queue_ok GeolocationSamples.two_queued
  /\ exists self',
       _location_error "kCLErrorDomain 0" GeolocationSamples.two_queued = (inr tt, self')
       /\ location_requests self' = []
       /\ (forall f, f ∈ [2; 1] ->
             settled self' !! f =
               Some (Exception
                       (RuntimeError "Unable to obtain a location (kCLErrorDomain 0)")))
       /\ (forall f, f ∉ [2; 1] -> settled self' !! f = (∅ : gmap nat outcome) !! f)
       /\ on_change_calls self' = []
       /\ (forall error', _location_error error' self' = (inr tt, self')).
Proof.
  split; [exact queue_ok_two_queued|].
  exact (location_error_fails_every_request
           GeolocationSamples.two_queued "kCLErrorDomain 0" queue_ok_two_queued).
Defined.

(** The Cocoa peer on its own does not check the precondition: called
    directly with permission denied, it queues the cell and asks the
    native manager.  The check is the interface's. *)
Remark peer_request_background_permission_unguarded :
  Geolocation.request_background_permission 7 GeolocationSamples.denied_idle
  = (inr tt,
     mkGeolocation (mkManager Denied None [requestAlwaysAuthorization]) [7] [] ∅ []).
Proof. reflexivity. Qed.

(** C3. In every state in which foreground permission has not been
    granted (the authorization status is undetermined or denied),
    whatever calls led to it, [request_background_permission()] raises a
    precondition error at once and leaves the whole state as it was: the
    cell is not queued and the native manager is not called. *)
Theorem background_permission_requires_foreground (self : t) (result : nat) :
  authorizationStatus (native self) = NotDetermined
  \/ authorizationStatus (native self) = Denied ->
  Location.request_background_permission result self
  = (inl (PermissionError
            ("Cannot ask for background location permission " +:+
             "before confirming foreground location permission.")),
     self)
  /\ permission_requests
       (Location.request_background_permission result self).2
     = permission_requests self
  /\ calls (native (Location.request_background_permission result self).2)
     = calls (native self).
Proof.
  intros Hst.
  assert (Hrun : Location.request_background_permission result self
                 = (inl (PermissionError
                           ("Cannot ask for background location permission " +:+
                            "before confirming foreground location permission.")),
                    self)).
  { unfold Location.request_background_permission, bind, get, has_permission.
    destruct Hst as [-> | ->]; reflexivity. }
  rewrite Hrun. auto.
Qed.

Lemma background_permission_requires_foreground_witness :
  Location.request_background_permission 7 GeolocationSamples.denied_idle
  = (inl (PermissionError
            ("Cannot ask for background location permission " +:+
             "before confirming foreground location permission.")),
     GeolocationSamples.denied_idle)
  /\ permission_requests
       (Location.request_background_permission 7 GeolocationSamples.denied_idle).2 = []
  /\ calls (native (Location.request_background_permission 7
                      GeolocationSamples.denied_idle).2) = [].
Proof.
  apply (background_permission_requires_foreground GeolocationSamples.denied_idle 7).
  right. reflexivity.
Defined.

Lemma has_permission_allow_unknown (self : t) :
  has_permission true self = true
  <-> undetermined_or_granted (authorizationStatus (native self)).
Proof.
  unfold has_permission, undetermined_or_granted.
  destruct (authorizationStatus (native self)); simpl; split; intros H;
    try reflexivity; try discriminate H; auto;
    destruct H as [H|[H|H]]; discriminate H.
Qed.

Lemma has_permission_allow_unknown_false (self : t) :
  has_permission true self = false
  <-> ~ undetermined_or_granted (authorizationStatus (native self)).
Proof.
  rewrite <- has_permission_allow_unknown.
  destruct (has_permission true self); split; intros H; try reflexivity;
    try discriminate H; auto.
  contradiction H. reflexivity.
Qed.

(** C6. [current_location()]: when permission is neither undetermined nor
    granted it raises a permission error and changes nothing (no native
    call); when permission is undetermined or granted and the native
    manager has a cached location, it settles the (pending) result cell
    with that location at once, queues nothing and makes no native call;
    otherwise it queues the cell and makes exactly one native call, the
    one-shot [requestLocation]. *)
Theorem current_location_cases (self : t) (result : nat) :
  (~ undetermined_or_granted (authorizationStatus (native self)) ->
     current_location result self
     = (inl (PermissionError
               "App does not have permission to use geolocation services"),
        self))
  /\ (forall cached,
        undetermined_or_granted (authorizationStatus (native self)) ->
        location (native self) = Some cached ->
        pending self result ->
        exists self',
          current_location result self = (inr tt, self')
          /\ settled self' = <[result := Result (VLatLng (latlng_of cached))]> (settled self)
          /\ location_requests self' = location_requests self
          /\ native self' = native self)
  /\ (undetermined_or_granted (authorizationStatus (native self)) ->
      location (native self) = None ->
      exists self',
        current_location result self = (inr tt, self')
        /\ location_requests self' = result :: location_requests self
        /\ calls (native self') = calls (native self) ++ [requestLocation]
        /\ settled self' = settled self).
Proof.
  unfold current_location, bind, get.
  split; [|split].
  - intros H. apply has_permission_allow_unknown_false in H. rewrite H. reflexivity.
  - intros cached H Hloc Hp. apply has_permission_allow_unknown in H.
    rewrite H, Hloc. unfold set_result. rewrite (settle_pending _ _ _ Hp).
    eexists. split; [reflexivity|]. simpl. auto.
  - intros H Hloc. apply has_permission_allow_unknown in H.
    rewrite H, Hloc. eexists. split; [reflexivity|]. simpl. auto.
Qed.

Lemma current_location_cases_witness :
  current_location 1 GeolocationSamples.denied_idle
  = (inl (PermissionError "App does not have permission to use geolocation services"),
     GeolocationSamples.denied_idle)
  /\ (exists self',
        current_location 1 GeolocationSamples.granted_cached = (inr tt, self')
        /\ settled self' = <[1 := Result (VLatLng (mkLatLng 37%float 42%float))]> ∅
        /\ location_requests self' = []
        /\ native self' = native GeolocationSamples.granted_cached)
  /\ (exists self',
        current_location 1 GeolocationSamples.granted_idle = (inr tt, self')
        /\ location_requests self' = [1]
        /\ calls (native self') = [] ++ [requestLocation]
        /\ settled self' = ∅).
Proof.
  split; [|split].
  - destruct (current_location_cases GeolocationSamples.denied_idle 1) as (H & _ & _).
    apply H. intros [E|[E|E]]; discriminate E.
  - destruct (current_location_cases GeolocationSamples.granted_cached 1) as (_ & H & _).
    apply (H GeolocationSamples.here); [right; left| |]; reflexivity.
  - destruct (current_location_cases GeolocationSamples.granted_idle 1) as (_ & _ & H).
    apply H; [right; left|]; reflexivity.
Defined.

(** C7, as the code has it. [stop] raises exactly when permission is
    neither undetermined nor granted.  With permission undetermined or
    granted it never raises, whatever was called before (whether or not
    tracking was started): it passes one [stopUpdatingLocation] to the
    native manager and changes nothing else.  With permission denied it
    raises a permission error and changes nothing. *)
Theorem stop_raises_only_without_permission (self : t) :
  (undetermined_or_granted (authorizationStatus (native self)) ->
     stop self
     = (inr tt,
        set_native (fun n => mkManager (authorizationStatus n) (location n)
                               (calls n ++ [stopUpdatingLocation])) self))
  /\ (~ undetermined_or_granted (authorizationStatus (native self)) ->
     stop self
     = (inl (PermissionError
               "App does not have permission to use geolocation services"),
        self)).
Proof.
  unfold stop, bind, get. split; intros H.
  - apply has_permission_allow_unknown in H. rewrite H. reflexivity.
  - apply has_permission_allow_unknown_false in H. rewrite H. reflexivity.
Qed.

Lemma stop_raises_only_without_permission_witness :
  stop GeolocationSamples.undetermined_idle
  = (inr tt, mkGeolocation (mkManager NotDetermined None [stopUpdatingLocation])
               [] [] ∅ [])
  /\ stop GeolocationSamples.denied_idle
     = (inl (PermissionError "App does not have permission to use geolocation services"),
        GeolocationSamples.denied_idle).
Proof.
  split.
  - destruct (stop_raises_only_without_permission GeolocationSamples.undetermined_idle)
      as [H _].
    apply H. left. reflexivity.
  - destruct (stop_raises_only_without_permission GeolocationSamples.denied_idle)
      as [_ H].
    apply H. intros [E|[E|E]]; discriminate E.
Defined.

(** C7, as stated, fails: on a bridge where location permission has been
    denied and tracking was never started, [stop] raises. *)
Lemma stop_raises_when_denied :
  calls (native GeolocationSamples.denied_idle) = []
  /\ authorizationStatus (native GeolocationSamples.denied_idle) = Denied
  /\ stop GeolocationSamples.denied_idle
     = (inl (PermissionError "App does not have permission to use geolocation services"),
        GeolocationSamples.denied_idle).
Proof. repeat split. Qed.

(** Comparison of a float with zero: a non-positive float is not positive
    (and neither is a NaN, which is not non-positive either). *)
Lemma float_nonpositive_not_positive (x : float) :
  PrimFloat.leb x 0%float = true -> PrimFloat.ltb 0%float x = false.
Proof.
  rewrite leb_spec, ltb_spec. unfold SFleb, SFltb, SFcompare.
  destruct (Prim2SF x) as [s| s | |s m e]; simpl; try destruct s; simpl; congruence.
Qed.

(** C8. Every sample the success callback delivers to the change
    listener has its altitude absent ([None], not a zero) when the
    vertical accuracy is non-positive (or not a number), for any
    coordinates and any altitude the native sample carries; the altitude
    is present exactly when the vertical accuracy is strictly positive,
    and is then the native ellipsoidal altitude. *)
Theorem altitude_absent_unless_vertical_accuracy_positive (self : t) (L : CLLocation) :
  exists delivered,
    on_change_calls (_location_change L self).2 = on_change_calls self ++ delivered
    /\ ((_location_change L self).1 = inr tt -> length delivered = 1)
    /\ Forall (fun c =>
                 (PrimFloat.leb (verticalAccuracy L) 0%float = true ->
                    change_altitude c = None)
                 /\ (PrimFloat.ltb 0%float (verticalAccuracy L) = false ->
                    change_altitude c = None)
                 /\ (PrimFloat.ltb 0%float (verticalAccuracy L) = true ->
                    change_altitude c = Some (ellipsoidalAltitude L))
                 /\ (is_Some (change_altitude c) ->
                    PrimFloat.ltb 0%float (verticalAccuracy L) = true))
              delivered.
Proof.
  rewrite location_change_unfold.
  pose proof (while_location_requests_frame
                (Result (VLatLng (latlng_of L))) (location_requests self) self)
    as [Hoc _].
  destruct (while_location_requests _ _ self) as [[e|[]] s'] eqn:E; simpl in Hoc |- *.
  - exists []. rewrite Hoc, app_nil_r.
    split; [reflexivity|]. split; [intros H; discriminate H|constructor].
  - eexists. rewrite Hoc. split; [reflexivity|]. split; [reflexivity|].
    constructor; [|constructor]. simpl.
    destruct (PrimFloat.ltb 0 (verticalAccuracy L)) eqn:Hlt; repeat split;
      try reflexivity; try discriminate.
    + intros Hle. apply float_nonpositive_not_positive in Hle. congruence.
    + intros [a Ha]. discriminate Ha.
Qed.

Lemma altitude_absent_unless_vertical_accuracy_positive_witness :
  exists delivered,
    on_change_calls
      (_location_change GeolocationSamples.there GeolocationSamples.two_queued).2
    = [] ++ delivered
    /\ ((_location_change GeolocationSamples.there GeolocationSamples.two_queued).1
        = inr tt -> length delivered = 1)
    /\ Forall (fun c =>
                 (PrimFloat.leb (-1)%float 0%float = true -> change_altitude c = None)
                 /\ (PrimFloat.ltb 0%float (-1)%float = false -> change_altitude c = None)
                 /\ (PrimFloat.ltb 0%float (-1)%float = true ->
                     change_altitude c = Some 0%float)
                 /\ (is_Some (change_altitude c) ->
                     PrimFloat.ltb 0%float (-1)%float = true))
              delivered.
Proof.
  exact (altitude_absent_unless_vertical_accuracy_positive
           GeolocationSamples.two_queued GeolocationSamples.there).
Defined.

(** The three sample updates: accuracy -1, accuracy 0 (altitude 0), and
    accuracy 5. *)
Example altitude_samples :
  on_change_calls (_location_change GeolocationSamples.there GeolocationSamples.two_queued).2
  = [mkChange (mkLatLng 42%float 37%float) None]
  /\ on_change_calls (_location_change GeolocationSamples.origin GeolocationSamples.two_queued).2
     = [mkChange (mkLatLng 0%float 0%float) None]
  /\ on_change_calls (_location_change GeolocationSamples.here GeolocationSamples.two_queued).2
     = [mkChange (mkLatLng 37%float 42%float) (Some 120%float)].
Proof. repeat split. Qed.

End GeolocationFacts.

(** ** The request lists along a call history *)

Module HistoryFacts.
Import Py Geolocation GeolocationPredicates History GeolocationFacts.

Lemma bridge_ok_queue_ok (self : t) : bridge_ok self -> queue_ok self.
Proof.
  intros [Hnd Hp]. apply NoDup_app in Hnd as (Hnd & _ & _).
  apply Forall_app in Hp as [Hp _]. split; assumption.
Qed.

Lemma while_permission_requests_cons body f q (self : t) :
  while_permission_requests body (f :: q) self =
    match body f (set_permission_requests q self) with
    | (inr _, s) => while_permission_requests body q s
    | (inl e, s) => (inl e, s)
    end.
Proof. reflexivity. Qed.

(** The authorization callback's loop over distinct pending cells: every
    cell of the list is given the permission held, and nothing else
    changes. *)
Lemma while_permission_requests_settle (q : list nat) :
  forall self : t,
    NoDup q -> Forall (pending self) q ->
    exists self',
      while_permission_requests
        (fun future =>
           self <- get ;; set_result future (VBool (has_permission false self)))%py
        q self = (inr tt, self')
      /\ permission_requests self' =
           match q with [] => permission_requests self | _ => [] end
      /\ (forall f, f ∈ q ->
            settled self' !! f = Some (Result (VBool (has_permission false self))))
      /\ (forall f, f ∉ q -> settled self' !! f = settled self !! f)
      /\ native self' = native self
      /\ location_requests self' = location_requests self
      /\ on_change_calls self' = on_change_calls self.
Proof.
  induction q as [|f q IH]; intros self Hnd Hp.
  - exists self. simpl. unfold ret. repeat split; auto.
    intros f Hf. inversion Hf.
  - apply NoDup_cons in Hnd as [Hf Hnd].
    apply Forall_cons in Hp as [Hpf Hp].
    set (s1 := set_permission_requests q self).
    assert (Hpf1 : pending s1 f) by exact Hpf.
    set (o := Result (VBool (has_permission false self))).
    set (s2 := set_settled (<[f := o]> (settled s1)) s1).
    assert (Hp2 : Forall (pending s2) q).
    { rewrite Forall_forall in Hp |- *. intros g Hg. unfold pending, s2. simpl.
      rewrite lookup_insert_ne; [apply Hp, Hg|]. intros ->. contradiction. }
    destruct (IH s2 Hnd Hp2) as (s' & Hrun & Hq & Hin & Hout & Hn & Hl & Hoc).
    exists s'. split; [|repeat split].
    + rewrite while_permission_requests_cons. fold s1.
      unfold bind at 1. unfold get at 1. unfold set_result.
      change (has_permission false s1) with (has_permission false self).
      rewrite (settle_pending _ _ _ Hpf1). fold o. fold s2. exact Hrun.
    + rewrite Hq. destruct q; reflexivity.
    + intros g Hg. apply elem_of_cons in Hg as [->|Hg]; [|exact (Hin g Hg)].
      rewrite Hout by exact Hf. unfold s2. simpl. apply lookup_insert_eq.
    + intros g Hg. apply not_elem_of_cons in Hg as [Hne Hg].
      rewrite Hout by exact Hg. unfold s2. simpl. apply lookup_insert_ne. auto.
    + rewrite Hn. reflexivity.
    + rewrite Hl. reflexivity.
    + rewrite Hoc. reflexivity.
Qed.

Lemma bridge_ok_init status cached : bridge_ok (__init__ status cached).
Proof. split; simpl; constructor. Qed.

(** Settling or queueing a fresh cell keeps the lists well formed. *)
Lemma bridge_ok_settle_fresh (self : t) (f : nat) (o : outcome) :
  bridge_ok self -> fresh self f ->
  bridge_ok (set_settled (<[f := o]> (settled self)) self).
Proof.
  intros [Hnd Hp] (Hf & Hl & Hpr). split; [exact Hnd|]. simpl.
  rewrite Forall_forall in Hp |- *. intros g Hg. unfold pending. simpl.
  rewrite lookup_insert_ne; [apply Hp, Hg|].
  intros ->. apply elem_of_app in Hg as [Hg|Hg]; contradiction.
Qed.

(** A native call leaves the lists and the cells alone. *)
Lemma bridge_ok_set_native f (self : t) : bridge_ok self -> bridge_ok (set_native f self).
Proof. intros H. exact H. Qed.

(** The lists stay well formed along every history in which each request
    brings a new cell. *)
Lemma bridge_ok_step (self : t) (e : event) :
  bridge_ok self -> admissible self e -> bridge_ok (after e self).
Proof.
  intros Hok Hadm. pose proof Hok as [Hnd Hp]. unfold after.
  destruct e as [f|f|f| | |status|locations|error|cached]; simpl in Hadm |- *.
  - destruct Hadm as (Hf & Hl & Hpr). split; simpl.
    + apply NoDup_app in Hnd as (Hl1 & Hdis & Hp1).
      apply NoDup_app. split; [exact Hl1|]. split.
      * intros g Hg Hg'. apply elem_of_cons in Hg' as [->|Hg']; [contradiction|].
        exact (Hdis g Hg Hg').
      * apply NoDup_cons. split; assumption.
    + apply Forall_app in Hp as [Hp1 Hp2]. apply Forall_app. split; [exact Hp1|].
      apply Forall_cons. split; [exact Hf|exact Hp2].
  - destruct Hadm as (Hf & Hl & Hpr). split; simpl.
    + apply NoDup_app in Hnd as (Hl1 & Hdis & Hp1).
      apply NoDup_app. split; [exact Hl1|]. split.
      * intros g Hg Hg'. apply elem_of_cons in Hg' as [->|Hg']; [contradiction|].
        exact (Hdis g Hg Hg').
      * apply NoDup_cons. split; assumption.
    + apply Forall_app in Hp as [Hp1 Hp2]. apply Forall_app. split; [exact Hp1|].
      apply Forall_cons. split; [exact Hf|exact Hp2].
  - pose proof Hadm as (Hf & Hl & Hpr).
    unfold current_location, bind, get.
    destruct (has_permission true self); [|exact Hok].
    destruct (location (native self)) as [cached|].
    + unfold set_result. rewrite (settle_pending _ _ _ Hf). simpl.
      apply bridge_ok_settle_fresh; assumption.
    + simpl. split; simpl.
      * apply NoDup_cons. split; [|exact Hnd].
        intros Hin. apply elem_of_app in Hin as [Hin|Hin]; contradiction.
      * apply Forall_cons. split; [exact Hf|exact Hp].
  - unfold start, bind, get. destruct (has_permission true self); exact Hok.
  - unfold stop, bind, get. destruct (has_permission true self); exact Hok.
  - unfold locationManagerDidChangeAuthorization_, _authorization_change.
    unfold bind at 1. unfold modify at 1. unfold bind at 1. unfold get at 1.
    set (s0 := set_native _ self).
    apply NoDup_app in Hnd as (Hl1 & Hdis & Hp1).
    apply Forall_app in Hp as [Hpl Hpp].
    destruct (while_permission_requests_settle (permission_requests s0) s0 Hp1 Hpp)
      as (s' & Hrun & Hq & Hin & Hout & Hn & Hl & Hoc).
    rewrite Hrun. simpl. split.
    + rewrite Hl, Hq. simpl.
      destruct (permission_requests self); [|rewrite app_nil_r; exact Hl1].
      rewrite app_nil_r. exact Hl1.
    + rewrite Hl, Hq. simpl.
      assert (Hkeep : Forall (pending s') (location_requests self)).
      { rewrite Forall_forall in Hpl |- *. intros g Hg. unfold pending.
        rewrite Hout; [exact (Hpl g Hg)|]. intros Hg'. exact (Hdis g Hg Hg'). }
      destruct (permission_requests self); rewrite app_nil_r; exact Hkeep.
  - unfold locationManager_didUpdateLocations_, index_last.
    destruct (last locations) as [L|]; [|exact Hok].
    destruct (location_change_ok self L (bridge_ok_queue_ok self Hok))
      as (s' & Hrun & Hq & Hin & Hout & Hoc & Hn & Hpr).
    unfold bind at 1. unfold ret at 1. rewrite Hrun. simpl.
    apply NoDup_app in Hnd as (Hl1 & Hdis & Hp1).
    apply Forall_app in Hp as [Hpl Hpp].
    split; rewrite Hq, Hpr; simpl; [exact Hp1|].
    rewrite Forall_forall in Hpp |- *. intros g Hg. unfold pending.
    rewrite Hout; [exact (Hpp g Hg)|]. intros Hg'. exact (Hdis g Hg' Hg).
  - unfold locationManager_didFailWithError_.
    destruct (location_error_ok self error (bridge_ok_queue_ok self Hok))
      as (s' & Hrun & Hq & Hin & Hout & Hoc & Hn & Hpr).
    rewrite Hrun. simpl.
    apply NoDup_app in Hnd as (Hl1 & Hdis & Hp1).
    apply Forall_app in Hp as [Hpl Hpp].
    split; rewrite Hq, Hpr; simpl; [exact Hp1|].
    rewrite Forall_forall in Hpp |- *. intros g Hg. unfold pending.
    rewrite Hout; [exact (Hpp g Hg)|]. intros Hg'. exact (Hdis g Hg' Hg).
  - exact Hok.
Qed.

Lemma reachable_bridge_ok (self : t) : reachable self -> bridge_ok self.
Proof.
  induction 1 as [status cached|self e _ IH Hadm].
  - apply bridge_ok_init.
  - apply bridge_ok_step; assumption.
Qed.

(** In every state a history leads to, the queued location requests are
    distinct pending cells: the callbacks find the queue they expect. *)
Lemma reachable_queue_ok (self : t) : reachable self -> queue_ok self.
Proof. intros H. apply bridge_ok_queue_ok, reachable_bridge_ok, H. Qed.

End HistoryFacts.

(** ** Properties of backend resolution *)

Module PlatformFacts.
Import Py Platform.

Example find_backends_editable_install :
  find_backends [PlatformSamples.gtk; PlatformSamples.cocoa; PlatformSamples.gtk]
  = [PlatformSamples.gtk; PlatformSamples.cocoa].
Proof. vm_compute. reflexivity. Qed.

Example find_backends_sorts :
  find_backends [PlatformSamples.qt; PlatformSamples.cocoa; PlatformSamples.gtk;
                 PlatformSamples.dummy]
  = [PlatformSamples.dummy; PlatformSamples.gtk; PlatformSamples.qt;
     PlatformSamples.cocoa].
Proof. vm_compute. reflexivity. Qed.

(** The discovered descriptors are the installed ones, each once. *)
Lemma find_backends_elem (installed : list EntryPoint) (b : EntryPoint) :
  b ∈ find_backends installed <-> b ∈ installed.
Proof.
  unfold find_backends. rewrite merge_sort_Permutation. apply elem_of_remove_dups.
Qed.

Lemma find_backends_NoDup (installed : list EntryPoint) :
  NoDup (find_backends installed).
Proof.
  unfold find_backends. rewrite merge_sort_Permutation. apply NoDup_remove_dups.
Qed.

(** *** The order of entry points *)

Lemma string_compare_refl (s : string) : String.compare s s = Eq.
Proof.
  pose proof (String.compare_antisym s s) as H.
  destruct (String.compare s s); [reflexivity|discriminate H|discriminate H].
Qed.

Lemma string_compare_lt_trans (a b c : string) :
  String.compare a b = Lt -> String.compare b c = Lt -> String.compare a c = Lt.
Proof.
  intros Hab Hbc.
  assert (Hle : String.le a c).
  { transitivity b; unfold String.le, String.leb; [rewrite Hab|rewrite Hbc]; exact I. }
  unfold String.le, String.leb in Hle.
  destruct (String.compare a c) eqn:Hac; [|reflexivity|contradiction Hle].
  apply String.compare_eq_iff in Hac. subst c.
  rewrite String.compare_antisym, Hab in Hbc. discriminate Hbc.
Qed.

Lemma entry_compare_eq (a b : EntryPoint) : entry_compare a b = Eq -> a = b.
Proof.
  destruct a as [n1 v1 g1], b as [n2 v2 g2]. unfold entry_compare. simpl.
  destruct (String.compare n1 n2) eqn:Hn; try discriminate.
  destruct (String.compare v1 v2) eqn:Hv; try discriminate.
  intros Hg.
  apply String.compare_eq_iff in Hn, Hv, Hg. subst. reflexivity.
Qed.

Lemma entry_compare_antisym (a b : EntryPoint) :
  entry_compare a b = CompOpp (entry_compare b a).
Proof.
  unfold entry_compare.
  rewrite (String.compare_antisym (name b) (name a)).
  destruct (String.compare (name a) (name b)); simpl; try reflexivity.
  rewrite (String.compare_antisym (value b) (value a)).
  destruct (String.compare (value a) (value b)); simpl; try reflexivity.
  apply String.compare_antisym.
Qed.

Lemma entry_compare_lt_trans (a b c : EntryPoint) :
  entry_compare a b = Lt -> entry_compare b c = Lt -> entry_compare a c = Lt.
Proof.
  destruct a as [n1 v1 g1], b as [n2 v2 g2], c as [n3 v3 g3].
  unfold entry_compare. simpl.
  destruct (String.compare n1 n2) eqn:Hn12; try discriminate;
    destruct (String.compare n2 n3) eqn:Hn23; try discriminate;
    try (apply String.compare_eq_iff in Hn12; subst n2);
    try (apply String.compare_eq_iff in Hn23; subst n3);
    try rewrite Hn12; try rewrite Hn23; try rewrite string_compare_refl;
    try (rewrite (string_compare_lt_trans _ _ _ Hn12 Hn23); reflexivity);
    try reflexivity.
  destruct (String.compare v1 v2) eqn:Hv12; try discriminate;
    destruct (String.compare v2 v3) eqn:Hv23; try discriminate;
    try (apply String.compare_eq_iff in Hv12; subst v2);
    try (apply String.compare_eq_iff in Hv23; subst v3);
    try rewrite Hv12; try rewrite Hv23; try rewrite string_compare_refl;
    try (rewrite (string_compare_lt_trans _ _ _ Hv12 Hv23); reflexivity);
    try reflexivity.
  apply string_compare_lt_trans.
Qed.

#[local] Instance entry_le_total : Total entry_le.
Proof.
  intros a b. unfold entry_le. rewrite (entry_compare_antisym b a).
  destruct (entry_compare a b); simpl; [left|left|right]; discriminate.
Qed.

#[local] Instance entry_le_antisym : AntiSymm eq entry_le.
Proof.
  intros a b Hab Hba. unfold entry_le in *.
  rewrite (entry_compare_antisym b a) in Hba.
  destruct (entry_compare a b) eqn:E; simpl in Hba; try congruence.
  apply entry_compare_eq, E.
Qed.

#[local] Instance entry_le_trans : Transitive entry_le.
Proof.
  intros a b c Hab Hbc. unfold entry_le in *.
  destruct (entry_compare a b) eqn:E1; [| |congruence].
  - apply entry_compare_eq in E1. subst b. exact Hbc.
  - destruct (entry_compare b c) eqn:E2; [| |congruence].
    + apply entry_compare_eq in E2. subst c. rewrite E1. discriminate.
    + rewrite (entry_compare_lt_trans _ _ _ E1 E2). discriminate.
Qed.

(** The result of discovery depends only on which entry points are
    installed, not on the order or the repetitions in which the registry
    (or the set built from it) yields them. *)
Lemma find_backends_of_set (installed installed' : list EntryPoint) :
  (forall b, b ∈ installed <-> b ∈ installed') ->
  find_backends installed = find_backends installed'.
Proof.
  intros Hsame. unfold find_backends.
  apply (StronglySorted_unique entry_le); try apply StronglySorted_merge_sort; try apply _.
  rewrite !merge_sort_Permutation.
  apply NoDup_Permutation; try apply NoDup_remove_dups.
  intros b. rewrite !elem_of_remove_dups. apply Hsame.
Qed.

Lemma find_backends_sorted (installed : list EntryPoint) :
  StronglySorted entry_le (find_backends installed).
Proof. apply StronglySorted_merge_sort; apply _. Qed.

Lemma append_assoc (a b c : string) : (a +:+ b) +:+ c = a +:+ (b +:+ c).
Proof.
  induction a as [|x a IH]; [reflexivity|].
  change (String x ((a +:+ b) +:+ c) = String x (a +:+ b +:+ c)).
  f_equal. exact IH.
Qed.

Lemma append_empty_r (a : string) : a +:+ "" = a.
Proof.
  induction a as [|x a IH]; [reflexivity|].
  change (String x (a +:+ "") = String x a). f_equal. exact IH.
Qed.

Lemma occurs_in_concat (sep : string) (items : list string) (item : string) :
  item ∈ items -> occurs_in item (String.concat sep items).
Proof.
  induction items as [|x items IH]; intros Hin; [inversion Hin|].
  apply elem_of_cons in Hin as [->|Hin].
  - destruct items as [|y items]; simpl.
    + exists "", "". change (x = x +:+ ""). symmetry. apply append_empty_r.
    + exists "", (sep +:+ String.concat sep (y :: items)). reflexivity.
  - destruct (IH Hin) as (before & after & Heq).
    destruct items as [|y items]; [inversion Hin|].
    exists (x +:+ sep +:+ before), after.
    change (String.concat sep (x :: y :: items))
      with (x +:+ sep +:+ String.concat sep (y :: items)).
    rewrite Heq, !append_assoc. reflexivity.
Qed.

Lemma occurs_in_app_l (part whole before : string) :
  occurs_in part whole -> occurs_in part (before +:+ whole).
Proof.
  intros (b & a & ->). exists (before +:+ b), a. rewrite append_assoc. reflexivity.
Qed.

Lemma occurs_in_app_r (part whole after : string) :
  occurs_in part whole -> occurs_in part (whole +:+ after).
Proof.
  intros (b & a & ->). exists b, (a +:+ after). rewrite !append_assoc. reflexivity.
Qed.

Section Resolver.

Variable ModuleType : Type.
Variable import_module : string -> exn + ModuleType.
Variable repr : string -> string.

(** The list of backends in an error message names every backend of
    the list, by package and by platform tag. *)
Lemma backends_list_names (backends : list EntryPoint) (b : EntryPoint) :
  b ∈ backends ->
  occurs_in (repr (value b) +:+ " (" +:+ name b +:+ ")")
            (_backends_list repr backends).
Proof.
  intros Hin. unfold _backends_list. apply occurs_in_concat.
  apply (list_elem_of_fmap_2
           (fun backend => repr (value backend) +:+ " (" +:+ name backend +:+ ")")).
  exact Hin.
Qed.

(** C2. Without the override variable (unset, or set to the empty
    string), resolution counts the discovered descriptors.  None: the
    "no backend" error.  Exactly one: that backend's factory is
    imported, whatever its platform tag.  More than one: the
    descriptors are filtered by the host platform tag; if none matches,
    an error that lists every installed backend; if exactly one
    matches, its factory is imported; if several match, an ambiguity
    error that names every candidate. *)
Theorem backend_resolution_by_count
    (environ : gmap string string) (installed : list EntryPoint)
    (current_platform : option string) :
  environ !! "TOGA_BACKEND" = None \/ environ !! "TOGA_BACKEND" = Some "" ->
  let toga_backends := find_backends installed in
  let matching_backends :=
    filter (fun backend => Some (name backend) = current_platform) toga_backends in
  let factory :=
    get_platform_factory ModuleType import_module repr
      environ installed current_platform in
  (toga_backends = [] ->
     factory = inl (RuntimeError "No Toga backend could be loaded."))
  /\ (forall backend, toga_backends = [backend] ->
        factory = import_module (value backend +:+ ".factory"))
  /\ (1 < length toga_backends ->
      (matching_backends = [] ->
         exists msg,
           factory = inl (RuntimeError msg)
           /\ msg = "Multiple Toga backends are installed ("
                     +:+ _backends_list repr toga_backends
                     +:+ "), but none of them match your current platform ("
                     +:+ repr_platform repr current_platform
                     +:+ "). Install a backend for your current platform, or use "
                     +:+ "TOGA_BACKEND to specify a backend."
           /\ (forall b, b ∈ toga_backends ->
                 occurs_in (repr (value b) +:+ " (" +:+ name b +:+ ")") msg))
      /\ (forall backend, matching_backends = [backend] ->
            factory = import_module (value backend +:+ ".factory"))
      /\ (1 < length matching_backends ->
          exists msg,
            factory = inl (RuntimeError msg)
            /\ msg = "Multiple candidate toga backends found: ("
                      +:+ _backends_list repr matching_backends
                      +:+ "). Uninstall the backends you don't require, or use "
                      +:+ "TOGA_BACKEND to specify a backend."
            /\ (forall b, b ∈ matching_backends ->
                  occurs_in (repr (value b) +:+ " (" +:+ name b +:+ ")") msg))).
Proof.
  intros Henv toga_backends matching_backends factory.
  assert (Hfactory :
    factory =
      match length toga_backends with
      | 0 => inl (RuntimeError "No Toga backend could be loaded.")
      | 1 => import_factory_of ModuleType import_module (toga_backends !! 0)
      | _ =>
          match length matching_backends with
          | 0 =>
              inl (RuntimeError
                     ("Multiple Toga backends are installed " +:+
                      "(" +:+ _backends_list repr toga_backends
                      +:+ "), but none of them "
                      +:+ "match your current platform ("
                      +:+ repr_platform repr current_platform +:+ "). "
                      +:+ "Install a backend for your current platform, or use "
                      +:+ "TOGA_BACKEND to specify a backend."))
          | 1 => import_factory_of ModuleType import_module (matching_backends !! 0)
          | _ =>
              inl (RuntimeError
                     ("Multiple candidate toga backends found: " +:+
                      "(" +:+ _backends_list repr matching_backends
                      +:+ "). Uninstall the "
                      +:+ "backends you don't require, or use TOGA_BACKEND to "
                      +:+ "specify a backend."))
          end
      end).
  { unfold factory, get_platform_factory.
    destruct Henv as [-> | ->]; reflexivity. }
  rewrite Hfactory. clear Hfactory.
  split; [|split].
  - intros ->. reflexivity.
  - intros backend ->. reflexivity.
  - intros Hlen.
    destruct toga_backends as [|b1 [|b2 rest]] eqn:Hbs;
      [simpl in Hlen; lia | simpl in Hlen; lia |].
    cbn [length]. rewrite <- Hbs. clear Hlen.
    split; [|split].
    + intros ->. eexists. split; [reflexivity|]. split.
      * reflexivity.
      * intros b Hb. apply occurs_in_app_l, occurs_in_app_l, occurs_in_app_r.
        apply backends_list_names. exact Hb.
    + intros backend ->. reflexivity.
    + intros Hm.
      destruct matching_backends as [|m1 [|m2 mrest]] eqn:Hms;
        [simpl in Hm; lia | simpl in Hm; lia |].
      cbn [length].
      eexists. split; [reflexivity|]. split.
      * reflexivity.
      * intros b Hb. apply occurs_in_app_l, occurs_in_app_l, occurs_in_app_r.
        apply backends_list_names. exact Hb.
Qed.

End Resolver.

Lemma backend_resolution_by_count_witness :
  get_platform_factory string PlatformSamples.import_any PlatformSamples.repr_plain
    ∅ [] (Some "linux")
  = inl (RuntimeError "No Toga backend could be loaded.")
  /\ get_platform_factory string PlatformSamples.import_any PlatformSamples.repr_plain
       ∅ [PlatformSamples.cocoa; PlatformSamples.cocoa] (Some "linux")
     = inr "toga_cocoa.factory"
  /\ get_platform_factory string PlatformSamples.import_any PlatformSamples.repr_plain
       ∅ [PlatformSamples.qt; PlatformSamples.cocoa; PlatformSamples.gtk] (Some "linux")
     = inl (RuntimeError
              ("Multiple candidate toga backends found: "
               +:+ "('toga_gtk' (linux), 'toga_qt' (linux)). "
               +:+ "Uninstall the backends you don't require, or use "
               +:+ "TOGA_BACKEND to specify a backend.")).
Proof.
  assert (Henv : (∅ : gmap string string) !! "TOGA_BACKEND" = None
                 \/ (∅ : gmap string string) !! "TOGA_BACKEND" = Some "")
    by (left; reflexivity).
  split; [|split].
  - destruct (backend_resolution_by_count string PlatformSamples.import_any
                PlatformSamples.repr_plain ∅ [] (Some "linux") Henv) as (H & _ & _).
    apply H. reflexivity.
  - destruct (backend_resolution_by_count string PlatformSamples.import_any
                PlatformSamples.repr_plain ∅
                [PlatformSamples.cocoa; PlatformSamples.cocoa] (Some "linux") Henv)
      as (_ & H & _).
    apply (H PlatformSamples.cocoa). vm_compute. reflexivity.
  - destruct (backend_resolution_by_count string PlatformSamples.import_any
                PlatformSamples.repr_plain ∅
                [PlatformSamples.qt; PlatformSamples.cocoa; PlatformSamples.gtk]
                (Some "linux") Henv)
      as (_ & _ & H).
    destruct H as (_ & _ & H); [vm_compute; lia|].
    destruct H as (msg & Hf & Hmsg & _); [vm_compute; lia|].
    rewrite Hf, Hmsg. vm_compute. reflexivity.
Defined.

(** Two installed backends, neither for the host platform. *)
Example no_backend_for_platform :
  get_platform_factory string PlatformSamples.import_any PlatformSamples.repr_plain
    ∅ [PlatformSamples.gtk; PlatformSamples.cocoa] (Some "windows")
  = inl (RuntimeError
           ("Multiple Toga backends are installed "
            +:+ "('toga_gtk' (linux), 'toga_cocoa' (macOS)), but none of them "
            +:+ "match your current platform ('windows'). "
            +:+ "Install a backend for your current platform, or use "
            +:+ "TOGA_BACKEND to specify a backend.")).
Proof. vm_compute. reflexivity. Qed.

(** With the override variable set, discovery is not consulted. *)
Example override_bypasses_discovery :
  get_platform_factory string PlatformSamples.import_any PlatformSamples.repr_plain
    {[ "TOGA_BACKEND" := "toga_dummy" ]} [] (Some "linux")
  = inr "toga_dummy.factory".
Proof. vm_compute. reflexivity. Qed.

End PlatformFacts.

(** ** Properties of the widget facades *)

Module WidgetFacts.
Import Py Widgets.

(** The two are exclusive. *)
Lemma held_on_interface_not_read {W N A : Type}
    (impl : W -> Peer N) (set_impl : Peer N -> W -> W) (getter : M W A) (self : W) :
  held_on_interface set_impl getter -> ~ reads_from_peer impl getter.
Proof.
  intros Hheld (method & field & Hread).
  destruct (Hheld self) as [Hsame _]. destruct (Hread self) as [_ Hcalls].
  rewrite Hsame in Hcalls.
  apply (f_equal length) in Hcalls. rewrite length_app in Hcalls. simpl in Hcalls. lia.
Qed.

Lemma peer_get_reads {W N A : Type} (impl : W -> Peer N)
    (set_impl : Peer N -> W -> W) (method : peer_call) (field : N -> A) :
  (forall p self, impl (set_impl p self) = p) ->
  reads_from_peer impl
    (fun self => let (r, p) := peer_get method field (impl self) in (r, set_impl p self)).
Proof.
  intros Hlens. exists method, field. intros self. simpl. rewrite Hlens. auto.
Qed.

Lemma data_held : held_on_interface DetailedList.set_impl DetailedList.data.
Proof. intros self. split; [reflexivity|]. intros impl. reflexivity. Qed.

Lemma content_held : held_on_interface SplitContainer.set_impl SplitContainer.content.
Proof. intros self. split; [reflexivity|]. intros impl. reflexivity. Qed.

(** C9, as stated, fails: the [data] getter of a [DetailedList] and the
    [content] getter of a [SplitContainer] answer with what the interface
    object holds.  On the sample list, whose native peer shows another
    source, [data] answers with the interface's source and makes no call
    to the peer; likewise [content] on the sample container. *)
Lemma data_and_content_not_read_from_peer :
  (DetailedList.data WidgetSamples.contacts = (inr (PyRef 1), WidgetSamples.contacts)
   /\ DetailedList.native_source (native (DetailedList._impl WidgetSamples.contacts))
      = PyRef 2
   /\ calls (DetailedList._impl (DetailedList.data WidgetSamples.contacts).2) = []
   /\ ~ reads_from_peer DetailedList._impl DetailedList.data)
  /\ (SplitContainer.content WidgetSamples.panes
      = (inr [PyRef 3; PyRef 4], WidgetSamples.panes)
      /\ SplitContainer.native_content (native (SplitContainer._impl WidgetSamples.panes))
         = [PyNone; PyNone]
      /\ calls (SplitContainer._impl (SplitContainer.content WidgetSamples.panes).2) = []
      /\ ~ reads_from_peer SplitContainer._impl SplitContainer.content).
Proof.
  split; (split; [reflexivity|]; split; [reflexivity|]; split; [reflexivity|]).
  - apply (held_on_interface_not_read _ DetailedList.set_impl _ WidgetSamples.contacts).
    exact data_held.
  - apply (held_on_interface_not_read _ SplitContainer.set_impl _ WidgetSamples.panes).
    exact content_held.
Qed.

(** C9, as the code has it.  The getters that the interface delegates
    ([value], [range], [min], [max] and [tick_count] of a [Slider],
    [direction] of a [Divider] and of a [SplitContainer]) read from the
    native peer at call time.  The getters [data] of a [DetailedList] and
    [content] of a [SplitContainer] return the value held on the
    interface object ([_data], [_content]) without a call to the peer, and
    so do the getters of handlers and of the read-only [accessors] and
    [missing_value]. *)
Theorem getters_read_peer_or_interface :
  (reads_from_peer Slider._impl Slider.value
   /\ reads_from_peer Slider._impl Slider.range
   /\ reads_from_peer Slider._impl Slider.min
   /\ reads_from_peer Slider._impl Slider.max
   /\ reads_from_peer Slider._impl Slider.tick_count
   /\ reads_from_peer Divider._impl Divider.direction
   /\ reads_from_peer SplitContainer._impl SplitContainer.direction)
  /\ (held_on_interface DetailedList.set_impl DetailedList.data
      /\ (forall self, DetailedList.data self = (inr (DetailedList._data self), self))
      /\ held_on_interface SplitContainer.set_impl SplitContainer.content
      /\ (forall self,
            SplitContainer.content self = (inr (SplitContainer._content self), self))
      /\ held_on_interface DetailedList.set_impl DetailedList.accessors
      /\ held_on_interface DetailedList.set_impl DetailedList.missing_value
      /\ held_on_interface DetailedList.set_impl DetailedList.on_primary_action
      /\ held_on_interface DetailedList.set_impl DetailedList.on_secondary_action
      /\ held_on_interface DetailedList.set_impl DetailedList.on_refresh
      /\ held_on_interface DetailedList.set_impl DetailedList.on_select
      /\ held_on_interface Slider.set_impl Slider.on_change
      /\ held_on_interface Slider.set_impl Slider.on_press
      /\ held_on_interface Slider.set_impl Slider.on_release).
Proof.
  split.
  - repeat split.
    + apply (peer_get_reads Slider._impl Slider.set_impl). reflexivity.
    + apply (peer_get_reads Slider._impl Slider.set_impl). reflexivity.
    + exists get_range, (fun n => fst (Slider.native_range n)). intros self. split; reflexivity.
    + exists get_range, (fun n => snd (Slider.native_range n)). intros self. split; reflexivity.
    + apply (peer_get_reads Slider._impl Slider.set_impl). reflexivity.
    + apply (peer_get_reads Divider._impl Divider.set_impl). reflexivity.
    + apply (peer_get_reads SplitContainer._impl SplitContainer.set_impl). reflexivity.
  - repeat split.
Qed.

(** The slider follows its native widget: whatever value the native
    slider has when the getter is called is the value returned. *)
Example slider_value_follows_native :
  (Slider.value WidgetSamples.volume).1 = inr 7%float
  /\ (Slider.value
        (Slider.set_impl
           (mkPeer (Slider.mkNative 2%float (0%float, 10%float) None) [])
           WidgetSamples.volume)).1 = inr 2%float.
Proof. split; reflexivity. Qed.

(** C10. On a [Divider], a [DetailedList] and a [SplitContainer], reading
    [enabled] gives [True] in every state, and assigning any value to
    [enabled] returns normally and leaves the whole widget as it was, its
    peer and the record of the calls made to the peer included: nothing is
    forwarded to the peer, and [enabled] still reads [True]. *)
Theorem enabled_always_true_and_assignment_ignored :
  (forall (self : Divider.t) (value : object),
      Divider.enabled self = (inr true, self)
      /\ Divider.enabled_setter value self = (inr tt, self)
      /\ calls (Divider._impl (Divider.enabled_setter value self).2)
         = calls (Divider._impl self)
      /\ Divider.enabled (Divider.enabled_setter value self).2 = (inr true, self))
  /\ (forall (self : DetailedList.t) (value : object),
      DetailedList.enabled self = (inr true, self)
      /\ DetailedList.enabled_setter value self = (inr tt, self)
      /\ calls (DetailedList._impl (DetailedList.enabled_setter value self).2)
         = calls (DetailedList._impl self)
      /\ DetailedList.enabled (DetailedList.enabled_setter value self).2
         = (inr true, self))
  /\ (forall (self : SplitContainer.t) (value : object),
      SplitContainer.enabled self = (inr true, self)
      /\ SplitContainer.enabled_setter value self = (inr tt, self)
      /\ calls (SplitContainer._impl (SplitContainer.enabled_setter value self).2)
         = calls (SplitContainer._impl self)
      /\ SplitContainer.enabled (SplitContainer.enabled_setter value self).2
         = (inr true, self)).
Proof. repeat split. Qed.

(** Disabling the sample divider changes nothing. *)
Example divider_cannot_be_disabled :
  (enabled <- (Divider.enabled_setter (PyBool false) ;;; Divider.enabled) ;;
   ret enabled)%py WidgetSamples.rule
  = (inr true, WidgetSamples.rule).
Proof. reflexivity. Qed.

End WidgetFacts.

(** ** Further properties of the location bridge *)

Module GeolocationMore.
Import Py Geolocation GeolocationPredicates History GeolocationFacts HistoryFacts.

(** [has_permission()] without [allow_unknown]: granted, when in use or
    always. *)
Lemma has_permission_granted (self : t) :
  has_permission false self = true
  <-> authorizationStatus (native self) = AuthorizedWhenInUse
      \/ authorizationStatus (native self) = AuthorizedAlways.
Proof.
  unfold has_permission.
  destruct (authorizationStatus (native self)); simpl; split; intros H;
    try reflexivity; try discriminate H; auto;
    destruct H as [H|H]; discriminate H.
Qed.

Lemma queue_ok_permission_sample :
  NoDup (permission_requests
           (mkGeolocation (mkManager AuthorizedWhenInUse None
                             [requestAlwaysAuthorization; requestAlwaysAuthorization])
              [4; 3] [] ∅ []))
  /\ Forall (pending
               (mkGeolocation (mkManager AuthorizedWhenInUse None
                                 [requestAlwaysAuthorization; requestAlwaysAuthorization])
                  [4; 3] [] ∅ []))
            [4; 3].
Proof.
  split; simpl.
  - apply NoDup_cons. split; [|apply NoDup_singleton].
    intros H. apply list_elem_of_singleton in H. discriminate H.
  - repeat constructor.
Defined.

(** The authorization callback answers every queued permission
    request with the permission the app holds at that moment (granted when
    in use or always; an undetermined status counts as not granted),
    empties the permission list, and leaves the location requests, the
    listener and the native manager alone. *)
Lemma authorization_change_ok (self : t) :
  NoDup (permission_requests self) ->
  Forall (pending self) (permission_requests self) ->
  exists self',
    _authorization_change self = (inr tt, self')
    /\ permission_requests self' = []
    /\ (forall f, f ∈ permission_requests self ->
          settled self' !! f
          = Some (Result (VBool (bool_decide
                (authorizationStatus (native self) = AuthorizedWhenInUse
                 \/ authorizationStatus (native self) = AuthorizedAlways)))))
    /\ (forall f, f ∉ permission_requests self -> settled self' !! f = settled self !! f)
    /\ location_requests self' = location_requests self
    /\ on_change_calls self' = on_change_calls self
    /\ native self' = native self.
Proof.
  intros Hnd Hp.
  destruct (while_permission_requests_settle _ self Hnd Hp)
    as (s' & Hrun & Hq & Hin & Hout & Hn & Hl & Hoc).
  exists s'. split; [exact Hrun|]. split.
  { rewrite Hq. destruct (permission_requests self); reflexivity. }
  split; [|auto].
  intros f Hf. rewrite (Hin f Hf). do 3 f_equal.
  destruct (has_permission false self) eqn:E.
  - apply has_permission_granted in E. symmetry. apply bool_decide_eq_true. exact E.
  - symmetry. apply bool_decide_eq_false. intros H.
    apply has_permission_granted in H. congruence.
Qed.

(** X1. The authorization callback answers every queued permission
    request with the permission the app holds at that moment (granted when
    in use or always; an undetermined status counts as not granted),
    empties the permission list, and leaves the location requests, the
    listener and the native manager alone. *)
Theorem authorization_change_answers_every_request (self : t) :
  NoDup (permission_requests self) ->
  Forall (pending self) (permission_requests self) ->
  exists self',
    _authorization_change self = (inr tt, self')
    /\ permission_requests self' = []
    /\ (forall f, f ∈ permission_requests self ->
          settled self' !! f
          = Some (Result (VBool (bool_decide
                (authorizationStatus (native self) = AuthorizedWhenInUse
                 \/ authorizationStatus (native self) = AuthorizedAlways)))))
    /\ (forall f, f ∉ permission_requests self -> settled self' !! f = settled self !! f)
    /\ location_requests self' = location_requests self
    /\ on_change_calls self' = on_change_calls self
    /\ native self' = native self.
Proof. exact (authorization_change_ok self). Qed.

Lemma authorization_change_answers_every_request_witness :
  exists self',
    _authorization_change
      (mkGeolocation (mkManager AuthorizedWhenInUse None
                        [requestAlwaysAuthorization; requestAlwaysAuthorization])
         [4; 3] [] ∅ []) = (inr tt, self')
    /\ permission_requests self' = []
    /\ (forall f, f ∈ [4; 3] ->
          settled self' !! f
          = Some (Result (VBool (bool_decide
                (AuthorizedWhenInUse = AuthorizedWhenInUse
                 \/ AuthorizedWhenInUse = AuthorizedAlways)))))
    /\ (forall f, f ∉ [4; 3] -> settled self' !! f = (∅ : gmap nat outcome) !! f)
    /\ location_requests self' = []
    /\ on_change_calls self' = []
    /\ native self'
       = mkManager AuthorizedWhenInUse None
           [requestAlwaysAuthorization; requestAlwaysAuthorization].
Proof.
  destruct queue_ok_permission_sample as [Hnd Hp].
  exact (authorization_change_answers_every_request _ Hnd Hp).
Defined.

(** X2. A permission request made with a new cell is queued with one call
    of the native [requestAlwaysAuthorization] and stays pending; the next
    authorization callback settles it with whether the status the system
    then reports is a grant (when in use or always), and empties the list.
    A background permission request does exactly the same as a foreground
    one. *)
Theorem permission_request_answered_by_callback
    (self : t) (future : nat) (status : CLAuthorizationStatus) :
  bridge_ok self -> fresh self future ->
  request_background_permission future self = request_permission future self
  /\ exists s1 s2,
       request_permission future self = (inr tt, s1)
       /\ permission_requests s1 = future :: permission_requests self
       /\ calls (native s1) = calls (native self) ++ [requestAlwaysAuthorization]
       /\ settled s1 = settled self
       /\ happen (authorization_changed status) s1 = (inr tt, s2)
       /\ settled s2 !! future
          = Some (Result (VBool (bool_decide
                (status = AuthorizedWhenInUse \/ status = AuthorizedAlways))))
       /\ permission_requests s2 = [].
Proof.
  intros Hok Hfresh. split; [reflexivity|].
  pose proof (bridge_ok_step self (request_permission_called future) Hok Hfresh) as Hok1.
  unfold after in Hok1. simpl in Hok1.
  set (s1 := (request_permission future self).2) in *.
  set (s1' := set_native (fun n => mkManager status (location n) (calls n)) s1).
  assert (Hok1' : bridge_ok s1') by exact Hok1.
  destruct Hok1' as [Hnd Hp].
  apply NoDup_app in Hnd as (_ & _ & Hnd). apply Forall_app in Hp as [_ Hp].
  destruct (authorization_change_ok s1' Hnd Hp)
    as (s2 & Hrun & Hq & Hin & _).
  exists s1, s2. repeat split; try reflexivity.
  - exact Hrun.
  - apply Hin. simpl. left.
  - exact Hq.
Qed.

Lemma bridge_ok_undetermined_idle : bridge_ok GeolocationSamples.undetermined_idle.
Proof. split; simpl; constructor. Defined.

Lemma fresh_undetermined_idle : fresh GeolocationSamples.undetermined_idle 1.
Proof.
  split; [reflexivity|]. split; simpl; intros H; inversion H.
Defined.

Lemma permission_request_answered_by_callback_witness :
  request_background_permission 1 GeolocationSamples.undetermined_idle
  = request_permission 1 GeolocationSamples.undetermined_idle
  /\ exists s1 s2,
       request_permission 1 GeolocationSamples.undetermined_idle = (inr tt, s1)
       /\ permission_requests s1 = [1]
       /\ calls (native s1) = [] ++ [requestAlwaysAuthorization]
       /\ settled s1 = ∅
       /\ happen (authorization_changed Denied) s1 = (inr tt, s2)
       /\ settled s2 !! 1
          = Some (Result (VBool (bool_decide
                (Denied = AuthorizedWhenInUse \/ Denied = AuthorizedAlways))))
       /\ permission_requests s2 = [].
Proof.
  exact (permission_request_answered_by_callback
           GeolocationSamples.undetermined_idle 1 Denied
           bridge_ok_undetermined_idle fresh_undetermined_idle).
Defined.

(** X3. A location request made with a new cell, with permission
    undetermined or granted and no location cached, stays pending until the
    next native callback answers it: an update callback settles it with the
    location of the last update of the batch, a failure callback settles it
    with the [RuntimeError] that describes the native error.  Either way the
    list of location requests is left empty. *)
Theorem location_request_answered_by_callback (self : t) (result : nat) :
  queue_ok self ->
  pending self result ->
  result ∉ location_requests self ->
  undetermined_or_granted (authorizationStatus (native self)) ->
  location (native self) = None ->
  exists s1,
    current_location result self = (inr tt, s1)
    /\ settled s1 !! result = None
    /\ (forall earlier L,
          exists s2,
            locationManager_didUpdateLocations_ (earlier ++ [L]) s1 = (inr tt, s2)
            /\ settled s2 !! result = Some (Result (VLatLng (latlng_of L)))
            /\ location_requests s2 = [])
    /\ (forall error,
          exists s2,
            locationManager_didFailWithError_ error s1 = (inr tt, s2)
            /\ settled s2 !! result
               = Some (Exception
                         (RuntimeError ("Unable to obtain a location (" +:+ error +:+ ")")))
            /\ location_requests s2 = []).
Proof.
  intros [Hnd Hp] Hpend Hnotin Hperm Hloc.
  apply has_permission_allow_unknown in Hperm.
  set (s1 := (current_location result self).2).
  assert (Hrun : current_location result self = (inr tt, s1)).
  { unfold s1, current_location, bind, get. rewrite Hperm, Hloc. reflexivity. }
  assert (Hq1 : location_requests s1 = result :: location_requests self).
  { unfold s1, current_location, bind, get. rewrite Hperm, Hloc. reflexivity. }
  assert (Hs1 : settled s1 = settled self).
  { unfold s1, current_location, bind, get. rewrite Hperm, Hloc. reflexivity. }
  assert (Hok1 : queue_ok s1).
  { split; rewrite Hq1.
    - apply NoDup_cons. split; assumption.
    - apply Forall_cons. split.
      + unfold pending. rewrite Hs1. exact Hpend.
      + rewrite Forall_forall in Hp |- *. intros g Hg. unfold pending.
        rewrite Hs1. exact (Hp g Hg). }
  exists s1. split; [exact Hrun|]. split; [rewrite Hs1; exact Hpend|]. split.
  - intros earlier L.
    destruct (location_change_ok s1 L Hok1) as (s2 & Hrun2 & Hq2 & Hin & _).
    exists s2. split; [|split; [|exact Hq2]].
    + unfold locationManager_didUpdateLocations_, index_last.
      rewrite last_snoc. exact Hrun2.
    + apply Hin. rewrite Hq1. left.
  - intros error.
    destruct (location_error_ok s1 error Hok1) as (s2 & Hrun2 & Hq2 & Hin & _).
    exists s2. split; [exact Hrun2|]. split; [|exact Hq2].
    apply Hin. rewrite Hq1. left.
Qed.

Lemma location_request_answered_by_callback_witness :
  exists s1,
    current_location 3 GeolocationSamples.two_queued = (inr tt, s1)
    /\ settled s1 !! 3 = None
    /\ (forall earlier L,
          exists s2,
            locationManager_didUpdateLocations_ (earlier ++ [L]) s1 = (inr tt, s2)
            /\ settled s2 !! 3 = Some (Result (VLatLng (latlng_of L)))
            /\ location_requests s2 = [])
    /\ (forall error,
          exists s2,
            locationManager_didFailWithError_ error s1 = (inr tt, s2)
            /\ settled s2 !! 3
               = Some (Exception
                         (RuntimeError ("Unable to obtain a location (" +:+ error +:+ ")")))
            /\ location_requests s2 = []).
Proof.
  apply (location_request_answered_by_callback GeolocationSamples.two_queued 3).
  - exact queue_ok_two_queued.
  - reflexivity.
  - simpl. intros H. apply elem_of_cons in H as [H|H]; [discriminate H|].
    apply list_elem_of_singleton in H. discriminate H.
  - right. left. reflexivity.
  - reflexivity.
Defined.

(** X4. [start] raises exactly when permission is neither undetermined nor
    granted, and then changes nothing.  Otherwise it passes one
    [startUpdatingLocation] to the native manager and touches neither the
    request lists, nor the cells, nor the listener.  It keeps no record of
    tracking being on: started twice, it calls the native manager twice. *)
Theorem start_cases (self : t) :
  (~ undetermined_or_granted (authorizationStatus (native self)) ->
     start self
     = (inl (PermissionError "App does not have permission to use geolocation services"),
        self))
  /\ (undetermined_or_granted (authorizationStatus (native self)) ->
      exists s1 s2,
        start self = (inr tt, s1)
        /\ calls (native s1) = calls (native self) ++ [startUpdatingLocation]
        /\ authorizationStatus (native s1) = authorizationStatus (native self)
        /\ location (native s1) = location (native self)
        /\ location_requests s1 = location_requests self
        /\ permission_requests s1 = permission_requests self
        /\ settled s1 = settled self
        /\ on_change_calls s1 = on_change_calls self
        /\ start s1 = (inr tt, s2)
        /\ calls (native s2)
           = calls (native self) ++ [startUpdatingLocation; startUpdatingLocation]).
Proof.
  split; intros H.
  - apply has_permission_allow_unknown_false in H.
    unfold start, bind, get. rewrite H. reflexivity.
  - apply has_permission_allow_unknown in H.
    assert (Hrun : forall s, has_permission true s = true ->
              start s = (inr tt, set_native (fun n => mkManager (authorizationStatus n)
                                   (location n) (calls n ++ [startUpdatingLocation])) s)).
    { intros s Hs. unfold start, bind, get. rewrite Hs. reflexivity. }
    eexists. eexists. split; [exact (Hrun self H)|].
    repeat (split; [reflexivity|]).
    split; [apply Hrun; exact H|].
    simpl. rewrite <- app_assoc. reflexivity.
Qed.

Lemma start_cases_witness :
  start GeolocationSamples.denied_idle
  = (inl (PermissionError "App does not have permission to use geolocation services"),
     GeolocationSamples.denied_idle)
  /\ exists s1 s2,
       start GeolocationSamples.granted_idle = (inr tt, s1)
       /\ calls (native s1) = [] ++ [startUpdatingLocation]
       /\ authorizationStatus (native s1) = AuthorizedWhenInUse
       /\ location (native s1) = None
       /\ location_requests s1 = []
       /\ permission_requests s1 = []
       /\ settled s1 = ∅
       /\ on_change_calls s1 = []
       /\ start s1 = (inr tt, s2)
       /\ calls (native s2) = [] ++ [startUpdatingLocation; startUpdatingLocation].
Proof.
  split.
  - destruct (start_cases GeolocationSamples.denied_idle) as [H _].
    apply H. intros [E|[E|E]]; discriminate E.
  - destruct (start_cases GeolocationSamples.granted_idle) as [_ H].
    apply H. right. left. reflexivity.
Defined.

(** X5. The permission checks are nested: background permission implies
    foreground permission, and foreground permission implies the permission
    that [current_location], [start] and [stop] ask for (which also admits
    an undetermined status).  The converses fail: permission when in use is
    no background permission, and an undetermined status is no
    permission. *)
Theorem permissions_nested :
  (forall self : t,
      (has_background_permission self = true -> has_permission false self = true)
      /\ (has_permission false self = true -> has_permission true self = true))
  /\ (exists self : t,
        has_permission false self = true /\ has_background_permission self = false)
  /\ (exists self : t,
        has_permission true self = true /\ has_permission false self = false).
Proof.
  split; [|split].
  - intros self. unfold has_background_permission, has_permission.
    destruct (authorizationStatus (native self)); simpl; split; intros H;
      try reflexivity; discriminate H.
  - exists GeolocationSamples.granted_idle. split; reflexivity.
  - exists GeolocationSamples.undetermined_idle. split; reflexivity.
Qed.

(** X6. Along every history that starts from a new bridge and in which
    every request brings a new cell, the two request lists hold distinct
    pending cells, no cell in both.  So in every state such a history
    reaches, the delegate's callbacks return normally: an update callback
    with a non-empty batch, a failure callback and an authorization
    callback never find a cell already settled.  The only callback that
    raises is an update callback with an empty batch: [IndexError], with
    nothing changed. *)
Theorem callbacks_return_normally_along_histories (self : t) :
  reachable self ->
  bridge_ok self
  /\ (forall locations, locations <> [] ->
        exists self', locationManager_didUpdateLocations_ locations self = (inr tt, self'))
  /\ locationManager_didUpdateLocations_ [] self = (inl IndexError, self)
  /\ (forall error,
        exists self', locationManager_didFailWithError_ error self = (inr tt, self'))
  /\ (exists self', locationManagerDidChangeAuthorization_ self = (inr tt, self')).
Proof.
  intros Hreach. pose proof (reachable_bridge_ok self Hreach) as Hok.
  pose proof (bridge_ok_queue_ok self Hok) as Hq.
  split; [exact Hok|]. split; [|split; [reflexivity|split]].
  - intros locations Hne.
    unfold locationManager_didUpdateLocations_, index_last.
    destruct (last locations) as [L|] eqn:E.
    + destruct (location_change_ok self L Hq) as (s' & Hrun & _).
      exists s'. exact Hrun.
    + apply last_None in E. contradiction.
  - intros error.
    destruct (location_error_ok self error Hq) as (s' & Hrun & _).
    exists s'. exact Hrun.
  - destruct Hok as [Hnd Hp].
    apply NoDup_app in Hnd as (_ & _ & Hnd). apply Forall_app in Hp as [_ Hp].
    destruct (authorization_change_ok self Hnd Hp) as (s' & Hrun & _).
    exists s'. exact Hrun.
Qed.

(** A history: a permission request, the user's grant, a location request. *)
Lemma reachable_sample :
  reachable
    (after (current_location_called 2)
       (after (authorization_changed AuthorizedWhenInUse)
          (after (request_permission_called 1) (__init__ NotDetermined None)))).
Proof.
  apply reachable_step.
  - apply reachable_step.
    + apply reachable_step.
      * apply reachable_init.
      * split; [reflexivity|]. split; simpl; intros H; inversion H.
    + exact I.
  - split; [reflexivity|]. split; simpl; intros H; inversion H.
Defined.

Lemma callbacks_return_normally_along_histories_witness :
  bridge_ok
    (after (current_location_called 2)
       (after (authorization_changed AuthorizedWhenInUse)
          (after (request_permission_called 1) (__init__ NotDetermined None))))
  /\ exists self',
       locationManager_didFailWithError_ "timeout"
         (after (current_location_called 2)
            (after (authorization_changed AuthorizedWhenInUse)
               (after (request_permission_called 1) (__init__ NotDetermined None))))
       = (inr tt, self').
Proof.
  destruct (callbacks_return_normally_along_histories _ reachable_sample)
    as (Hok & _ & _ & Herr & _).
  split; [exact Hok|exact (Herr "timeout")].
Defined.

(** The sample history, step by step: the request is answered [True], the
    location request is queued and answered by the failure. *)
Example sample_history_outcomes :
  let s :=
    after (location_failed "timeout")
      (after (current_location_called 2)
         (after (authorization_changed AuthorizedWhenInUse)
            (after (request_permission_called 1) (__init__ NotDetermined None)))) in
  settled s !! 1 = Some (Result (VBool true))
  /\ settled s !! 2
     = Some (Exception (RuntimeError "Unable to obtain a location (timeout)"))
  /\ location_requests s = [] /\ permission_requests s = []
  /\ calls (native s) = [requestAlwaysAuthorization; requestLocation].
Proof. vm_compute. repeat split. Qed.

End GeolocationMore.

(** ** Further properties of backend resolution *)

Module PlatformMore.
Import Py Platform PlatformFacts.

(** The platform names Toga knows. *)
Lemma toga_platform_names (p : string) :
  (exists key, _TOGA_PLATFORMS !! key = Some p)
  <-> p ∈ ["android"; "macOS"; "iOS"; "linux"; "freeBSD"; "tvOS"; "watchOS";
           "wearOS"; "web"; "windows"].
Proof.
  split.
  - intros [key Hkey]. unfold _TOGA_PLATFORMS in Hkey.
    apply elem_of_list_to_map_2 in Hkey.
    repeat (apply elem_of_cons in Hkey as [Hkey|Hkey];
            [injection Hkey as _ <-; set_solver|]).
    inversion Hkey.
  - intros Hp.
    repeat (apply elem_of_cons in Hp as [->|Hp];
            [first [ exists "android"; vm_compute; reflexivity
                   | exists "darwin"; vm_compute; reflexivity
                   | exists "ios"; vm_compute; reflexivity
                   | exists "linux"; vm_compute; reflexivity
                   | exists "freebsd"; vm_compute; reflexivity
                   | exists "tvos"; vm_compute; reflexivity
                   | exists "watchos"; vm_compute; reflexivity
                   | exists "wearos"; vm_compute; reflexivity
                   | exists "emscripten"; vm_compute; reflexivity
                   | exists "win32"; vm_compute; reflexivity ]|]).
    inversion Hp.
Qed.

(** X7. [get_current_platform()] answers with one of the ten platform
    names Toga knows, or with [None].  On Android the answer is "android"
    whatever [sys.platform] says (it says "linux" there).  Every
    [sys.platform] that starts with "freebsd", with any version after it, is
    "freeBSD".  Elsewhere, a [sys.platform] that is not a key of the table
    gives [None]. *)
Theorem get_current_platform_cases (has_getandroidapilevel : bool) (sys_platform : string) :
  (forall p,
      get_current_platform has_getandroidapilevel sys_platform = Some p ->
      p ∈ ["android"; "macOS"; "iOS"; "linux"; "freeBSD"; "tvOS"; "watchOS";
           "wearOS"; "web"; "windows"])
  /\ get_current_platform true sys_platform = Some "android"
  /\ (forall version, get_current_platform false ("freebsd" +:+ version) = Some "freeBSD")
  /\ (has_getandroidapilevel = false ->
      String.prefix "freebsd" sys_platform = false ->
      sys_platform ∉ ["android"; "darwin"; "ios"; "linux"; "freebsd"; "tvos";
                      "watchos"; "wearos"; "emscripten"; "win32"] ->
      get_current_platform has_getandroidapilevel sys_platform = None).
Proof.
  split; [|split; [reflexivity|split]].
  - intros p. unfold get_current_platform.
    destruct has_getandroidapilevel; [intros [= <-]; set_solver|].
    destruct (String.prefix "freebsd" sys_platform); [intros [= <-]; set_solver|].
    intros H. apply toga_platform_names. exists sys_platform. exact H.
  - intros version. unfold get_current_platform.
    assert (Hp : String.prefix "freebsd" ("freebsd" +:+ version) = true).
    { destruct version; reflexivity. }
    rewrite Hp. reflexivity.
  - intros -> Hprefix Hkey. unfold get_current_platform. rewrite Hprefix.
    unfold _TOGA_PLATFORMS. apply not_elem_of_list_to_map_1. exact Hkey.
Qed.

Lemma get_current_platform_cases_witness :
  get_current_platform true "linux" = Some "android"
  /\ get_current_platform false ("freebsd" +:+ "14") = Some "freeBSD"
  /\ get_current_platform false "cygwin" = None.
Proof.
  split; [|split].
  - destruct (get_current_platform_cases false "linux") as (_ & H & _). exact H.
  - destruct (get_current_platform_cases false "linux") as (_ & _ & H & _).
    exact (H "14").
  - destruct (get_current_platform_cases false "cygwin") as (_ & _ & _ & H).
    apply H; [reflexivity|reflexivity|].
    intros Hin. repeat (apply elem_of_cons in Hin as [Hin|Hin]; [discriminate Hin|]).
    inversion Hin.
Defined.

(** X8. [find_backends()] returns exactly the installed entry points, each
    once, in the order of their (name, value, group).  The result depends
    only on which entry points are installed: the registry reporting each
    one twice (as for an editable install), or in another order, changes
    nothing. *)
Theorem find_backends_each_once_sorted (installed installed' : list EntryPoint) :
  (forall b, b ∈ find_backends installed <-> b ∈ installed)
  /\ NoDup (find_backends installed)
  /\ StronglySorted entry_le (find_backends installed)
  /\ ((forall b, b ∈ installed <-> b ∈ installed') ->
      find_backends installed = find_backends installed')
  /\ find_backends (installed ++ installed) = find_backends installed
  /\ find_backends (reverse installed) = find_backends installed.
Proof.
  split; [intros b; apply find_backends_elem|].
  split; [apply find_backends_NoDup|].
  split; [apply find_backends_sorted|].
  split; [apply find_backends_of_set|].
  split; apply find_backends_of_set; intros b.
  - rewrite elem_of_app. tauto.
  - apply elem_of_reverse.
Qed.

Lemma find_backends_each_once_sorted_witness :
  find_backends [PlatformSamples.gtk; PlatformSamples.cocoa]
  = find_backends [PlatformSamples.cocoa; PlatformSamples.gtk; PlatformSamples.cocoa].
Proof.
  destruct (find_backends_each_once_sorted
              [PlatformSamples.gtk; PlatformSamples.cocoa]
              [PlatformSamples.cocoa; PlatformSamples.gtk; PlatformSamples.cocoa])
    as (_ & _ & _ & H & _).
  apply H. intros b. rewrite !elem_of_cons. tauto.
Defined.

Section Resolver.

Variable ModuleType : Type.
Variable import_module : string -> exn + ModuleType.
Variable repr : string -> string.

(** Without the override, resolution is the count over discovery. *)
Lemma get_platform_factory_unset
    (environ : gmap string string) (installed : list EntryPoint)
    (current_platform : option string) :
  environ !! "TOGA_BACKEND" = None \/ environ !! "TOGA_BACKEND" = Some "" ->
  get_platform_factory ModuleType import_module repr environ installed current_platform
  = match length (find_backends installed) with
    | 0 => inl (RuntimeError "No Toga backend could be loaded.")
    | 1 => import_factory_of ModuleType import_module (find_backends installed !! 0)
    | _ =>
        match length (filter (fun backend => Some (name backend) = current_platform)
                             (find_backends installed)) with
        | 0 =>
            inl (RuntimeError
                   ("Multiple Toga backends are installed " +:+
                    "(" +:+ _backends_list repr (find_backends installed)
                    +:+ "), but none of them "
                    +:+ "match your current platform ("
                    +:+ repr_platform repr current_platform +:+ "). "
                    +:+ "Install a backend for your current platform, or use "
                    +:+ "TOGA_BACKEND to specify a backend."))
        | 1 => import_factory_of ModuleType import_module
                 (filter (fun backend => Some (name backend) = current_platform)
                         (find_backends installed) !! 0)
        | _ =>
            inl (RuntimeError
                   ("Multiple candidate toga backends found: " +:+
                    "(" +:+ _backends_list repr
                              (filter (fun backend => Some (name backend) = current_platform)
                                      (find_backends installed))
                    +:+ "). Uninstall the "
                    +:+ "backends you don't require, or use TOGA_BACKEND to "
                    +:+ "specify a backend."))
        end
    end.
Proof. intros [He|He]; unfold get_platform_factory; rewrite He; reflexivity. Qed.

(** X9. With [TOGA_BACKEND] set to a non-empty name, the factory is
    imported from that name and discovery plays no part in the answer: if
    the import succeeds, its module is the result, whatever is installed
    and whatever the host platform; a [ModuleNotFoundError] becomes a
    [RuntimeError] that names the backend asked for, the cause, and the
    values of the installed backends; any other exception of the import
    goes through unchanged. *)
Theorem override_imports_named_backend
    (environ : gmap string string) (installed : list EntryPoint)
    (current_platform : option string) (backend_value : string) :
  environ !! "TOGA_BACKEND" = Some backend_value ->
  backend_value <> "" ->
  let factory :=
    get_platform_factory ModuleType import_module repr
      environ installed current_platform in
  (forall m, import_module (backend_value +:+ ".factory") = inr m -> factory = inr m)
  /\ (forall exc,
        import_module (backend_value +:+ ".factory") = inl (ModuleNotFoundError exc) ->
        factory
        = inl (RuntimeError
                 ("The backend specified by TOGA_BACKEND (" +:+ repr backend_value
                  +:+ ") could not be loaded (" +:+ exc
                  +:+ "). It should be one of: "
                  +:+ String.concat ", "
                        (map (fun backend => repr (value backend))
                             (find_backends installed))
                  +:+ ".")))
  /\ (forall e,
        import_module (backend_value +:+ ".factory") = inl e ->
        (forall exc, e <> ModuleNotFoundError exc) ->
        factory = inl e).
Proof.
  intros Henv Hne factory. unfold factory, get_platform_factory. rewrite Henv.
  destruct backend_value as [|c rest]; [contradiction Hne; reflexivity|].
  split; [|split].
  - intros m ->. reflexivity.
  - intros exc ->. reflexivity.
  - intros e -> Hother. destruct e; try reflexivity.
    contradiction (Hother msg). reflexivity.
Qed.

(** X10. Without the override, a factory is only ever imported for an
    installed backend, and never by an arbitrary choice among several: when
    resolution returns a module, it is the factory module of an installed
    entry point that is either the only one installed, or the only
    installed one whose name is the host platform. *)
Theorem resolved_backend_is_installed_and_unique
    (environ : gmap string string) (installed : list EntryPoint)
    (current_platform : option string) (m : ModuleType) :
  environ !! "TOGA_BACKEND" = None \/ environ !! "TOGA_BACKEND" = Some "" ->
  get_platform_factory ModuleType import_module repr
    environ installed current_platform = inr m ->
  exists backend,
    backend ∈ installed
    /\ import_module (value backend +:+ ".factory") = inr m
    /\ ((forall b, b ∈ installed -> b = backend)
        \/ (Some (name backend) = current_platform
            /\ forall b, b ∈ installed -> Some (name b) = current_platform ->
                 b = backend)).
Proof.
  intros Henv Hres. rewrite (get_platform_factory_unset _ _ _ Henv) in Hres.
  rename Hres into Hres'.
  destruct (find_backends installed) as [|b1 [|b2 bs]] eqn:Hbs; [discriminate Hres'| |].
  - simpl in Hres'. exists b1. split; [|split; [exact Hres'|left]].
    + apply find_backends_elem. rewrite Hbs. left.
    + intros b Hb. apply find_backends_elem in Hb. rewrite Hbs in Hb.
      apply list_elem_of_singleton in Hb. exact Hb.
  - cbn [length] in Hres'. rewrite <- Hbs in *.
    destruct (filter _ (find_backends installed)) as [|m1 [|m2 ms]] eqn:Hms;
      try discriminate Hres'.
    simpl in Hres'.
    assert (Hm1 : m1 ∈ filter (fun backend => Some (name backend) = current_platform)
                         (find_backends installed)) by (rewrite Hms; left).
    apply list_elem_of_filter in Hm1 as [Hname Hin].
    exists m1. split; [apply find_backends_elem, Hin|]. split; [exact Hres'|right].
    split; [exact Hname|].
    intros b Hb Hbname.
    assert (Hbm : b ∈ filter (fun backend => Some (name backend) = current_platform)
                        (find_backends installed)).
    { apply list_elem_of_filter. split; [exact Hbname|apply find_backends_elem, Hb]. }
    rewrite Hms in Hbm. apply list_elem_of_singleton in Hbm. exact Hbm.
Qed.

End Resolver.

Lemma override_imports_named_backend_witness :
  get_platform_factory string PlatformSamples.import_any PlatformSamples.repr_plain
    {[ "TOGA_BACKEND" := "toga_dummy" ]} [PlatformSamples.gtk; PlatformSamples.qt]
    (Some "linux")
  = inr "toga_dummy.factory".
Proof.
  destruct (override_imports_named_backend string PlatformSamples.import_any
              PlatformSamples.repr_plain {[ "TOGA_BACKEND" := "toga_dummy" ]}
              [PlatformSamples.gtk; PlatformSamples.qt] (Some "linux") "toga_dummy")
    as (H & _ & _); [vm_compute; reflexivity|discriminate|].
  apply H. reflexivity.
Defined.

Lemma resolved_backend_is_installed_and_unique_witness :
  exists backend,
    backend ∈ [PlatformSamples.gtk; PlatformSamples.cocoa]
    /\ PlatformSamples.import_any (value backend +:+ ".factory") = inr "toga_cocoa.factory"
    /\ ((forall b, b ∈ [PlatformSamples.gtk; PlatformSamples.cocoa] -> b = backend)
        \/ (Some (name backend) = Some "macOS"
            /\ forall b, b ∈ [PlatformSamples.gtk; PlatformSamples.cocoa] ->
                 Some (name b) = Some "macOS" -> b = backend)).
Proof.
  apply (resolved_backend_is_installed_and_unique string PlatformSamples.import_any
           PlatformSamples.repr_plain ∅).
  - left. reflexivity.
  - vm_compute. reflexivity.
Defined.

End PlatformMore.

(** ** Properties of the widget methods *)

Module WidgetMore.
Import Py Widgets.

Section Scrolling.
Import DetailedListScroll.

Variable len : object -> nat.

(** What [scroll_to_row] does, by the number of rows. *)
Lemma scroll_to_row_unfold (row : Z) (self : t) :
  scroll_to_row len row self
  = (inr tt,
     if (1 <? Z.of_nat (len (DetailedList._data (widget self))))%Z then
       mkScroll (widget self)
         (scroll_to_row_calls self ++
            [if (0 <=? row)%Z
             then Z.min row (Z.of_nat (len (DetailedList._data (widget self))))
             else Z.max (Z.of_nat (len (DetailedList._data (widget self))) + row) 0])
     else self).
Proof.
  unfold scroll_to_row, bind, on_widget, DetailedList.data, get, ret. simpl.
  destruct self as [w c]. simpl.
  destruct (1 <? Z.of_nat (len (DetailedList._data w)))%Z; [|reflexivity].
  destruct (0 <=? row)%Z; reflexivity.
Qed.

(** X11. [scroll_to_row] never raises.  On a list of at most one row it
    does nothing at all, whatever the row asked for.  On a longer list of n
    rows it makes exactly one [scroll_to_row] call to the peer, with an
    index between 0 and n inclusive: the row itself for 0 <= row < n, n (one
    past the last row) for row >= n, n + row for -n <= row < 0, and 0 for
    row < -n. *)
Theorem scroll_to_row_index (row : Z) (self : t) :
  let n := Z.of_nat (len (DetailedList._data (widget self))) in
  ((n <= 1)%Z -> scroll_to_row len row self = (inr tt, self))
  /\ ((1 < n)%Z ->
      exists index,
        scroll_to_row len row self
        = (inr tt, mkScroll (widget self) (scroll_to_row_calls self ++ [index]))
        /\ (0 <= index <= n)%Z
        /\ ((0 <= row < n)%Z -> index = row)
        /\ ((n <= row)%Z -> index = n)
        /\ ((- n <= row < 0)%Z -> index = (n + row)%Z)
        /\ ((row < - n)%Z -> index = 0%Z)).
Proof.
  intros n. rewrite scroll_to_row_unfold. fold n. split; intros Hn.
  - destruct (Z.ltb_spec 1 n); [lia|]. destruct self; reflexivity.
  - destruct (Z.ltb_spec 1 n); [|lia]. eexists. split; [reflexivity|].
    destruct (Z.leb_spec 0 row);
      repeat match goal with |- _ /\ _ => split end; lia.
Qed.

(** X12. On a list of more than one row, [scroll_to_top] asks the peer for
    row 0 and [scroll_to_bottom] for the last row, n - 1; on a list of at
    most one row neither calls the peer. *)
Theorem scroll_to_top_and_bottom (self : t) :
  let n := Z.of_nat (len (DetailedList._data (widget self))) in
  ((1 < n)%Z ->
     scroll_to_top len self
     = (inr tt, mkScroll (widget self) (scroll_to_row_calls self ++ [0%Z]))
     /\ scroll_to_bottom len self
        = (inr tt, mkScroll (widget self) (scroll_to_row_calls self ++ [(n - 1)%Z])))
  /\ ((n <= 1)%Z ->
      scroll_to_top len self = (inr tt, self)
      /\ scroll_to_bottom len self = (inr tt, self)).
Proof.
  intros n. unfold scroll_to_top, scroll_to_bottom.
  rewrite !scroll_to_row_unfold. fold n. split; intros Hn.
  - destruct (Z.ltb_spec 1 n); [|lia]. simpl. split; do 4 f_equal; lia.
  - destruct (Z.ltb_spec 1 n); [lia|]. destruct self; split; reflexivity.
Qed.

End Scrolling.

Lemma scroll_to_row_index_witness :
  (exists index,
     DetailedListScroll.scroll_to_row ActionSamples.ten_rows 25 ActionSamples.contacts_view
     = (inr tt, DetailedListScroll.mkScroll WidgetSamples.contacts ([] ++ [index]))
     /\ index = 10%Z)
  /\ (exists index,
        DetailedListScroll.scroll_to_row ActionSamples.ten_rows (-3)
          ActionSamples.contacts_view
        = (inr tt, DetailedListScroll.mkScroll WidgetSamples.contacts ([] ++ [index]))
        /\ index = (10 + -3)%Z)
  /\ DetailedListScroll.scroll_to_row (fun _ => 1) 0 ActionSamples.contacts_view
     = (inr tt, ActionSamples.contacts_view).
Proof.
  split; [|split].
  - destruct (scroll_to_row_index ActionSamples.ten_rows 25 ActionSamples.contacts_view)
      as [_ H].
    destruct H as (index & Hrun & _ & _ & Hpast & _); [unfold ActionSamples.ten_rows; lia|].
    exists index. split; [exact Hrun|]. apply Hpast. unfold ActionSamples.ten_rows. lia.
  - destruct (scroll_to_row_index ActionSamples.ten_rows (-3) ActionSamples.contacts_view)
      as [_ H].
    destruct H as (index & Hrun & _ & _ & _ & Hneg & _); [unfold ActionSamples.ten_rows; lia|].
    exists index. split; [exact Hrun|]. apply Hneg. unfold ActionSamples.ten_rows. lia.
  - destruct (scroll_to_row_index (fun _ => 1) 0 ActionSamples.contacts_view) as [H _].
    apply H. unfold ActionSamples.ten_rows. lia.
Defined.

Lemma scroll_to_top_and_bottom_witness :
  DetailedListScroll.scroll_to_top ActionSamples.ten_rows ActionSamples.contacts_view
  = (inr tt, DetailedListScroll.mkScroll WidgetSamples.contacts ([] ++ [0%Z]))
  /\ DetailedListScroll.scroll_to_bottom ActionSamples.ten_rows ActionSamples.contacts_view
     = (inr tt, DetailedListScroll.mkScroll WidgetSamples.contacts ([] ++ [(10 - 1)%Z])).
Proof.
  destruct (scroll_to_top_and_bottom ActionSamples.ten_rows ActionSamples.contacts_view)
    as [H _].
  apply H. unfold ActionSamples.ten_rows. lia.
Defined.

Section Suppress.
Import SliderChange.

(** X13. Inside [with self._suppress_change()] the slider has no
    [on_change] handler.  When the body returns, the handler the slider had
    before is put back (whatever the body did to it).  When the body
    raises, the exception goes through and the handler is NOT put back: if
    the body left it alone, the slider is left without a handler. *)
Theorem suppress_change_restores_unless_body_raises
    {A : Type} (body : M Slider.t A) (self : Slider.t) :
  let inside := set__on_change PyNone self in
  Slider._on_change inside = PyNone
  /\ (forall a s,
        body inside = (inr a, s) ->
        _suppress_change body self = (inr a, set__on_change (Slider._on_change self) s))
  /\ (forall e s,
        body inside = (inl e, s) ->
        _suppress_change body self = (inl e, s)
        /\ (Slider._on_change s = Slider._on_change inside ->
            Slider._on_change (_suppress_change body self).2 = PyNone)).
Proof.
  intros inside. split; [reflexivity|].
  assert (Hrun : _suppress_change body self =
                 match body inside with
                 | (inr a, s) => (inr a, set__on_change (Slider._on_change self) s)
                 | (inl e, s) => (inl e, s)
                 end).
  { unfold _suppress_change, bind, get, modify, ret. fold inside.
    destruct (body inside) as [[e|a] s]; reflexivity. }
  split.
  - intros a s Hbody. rewrite Hrun, Hbody. reflexivity.
  - intros e s Hbody. rewrite Hrun, Hbody. split; [reflexivity|].
    simpl. intros ->. reflexivity.
Qed.

End Suppress.

Lemma suppress_change_restores_unless_body_raises_witness :
  SliderChange._suppress_change (A := unit) (raise (OtherError "native failure"))
    (SliderChange.set__on_change (PyRef 9) WidgetSamples.volume)
  = (inl (OtherError "native failure"), WidgetSamples.volume)
  /\ Slider._on_change
       (SliderChange._suppress_change (A := unit) (raise (OtherError "native failure"))
          (SliderChange.set__on_change (PyRef 9) WidgetSamples.volume)).2 = PyNone
  /\ SliderChange._suppress_change (ret tt)
       (SliderChange.set__on_change (PyRef 9) WidgetSamples.volume)
     = (inr tt, SliderChange.set__on_change (PyRef 9) WidgetSamples.volume).
Proof.
  destruct (suppress_change_restores_unless_body_raises
              (A := unit) (raise (OtherError "native failure"))
              (SliderChange.set__on_change (PyRef 9) WidgetSamples.volume))
    as (_ & _ & Hraise).
  destruct (Hraise (OtherError "native failure") WidgetSamples.volume eq_refl)
    as [Hrun Hlost].
  split; [exact Hrun|]. split; [exact (Hlost eq_refl)|].
  destruct (suppress_change_restores_unless_body_raises
              (ret tt) (SliderChange.set__on_change (PyRef 9) WidgetSamples.volume))
    as (_ & Hret & _).
  exact (Hret tt WidgetSamples.volume eq_refl).
Defined.

Section Content.
Import SplitContainerContent.

Lemma do_run (e : effect) (self : t) :
  do e self = (inr tt, mkContent (container self) (effects self ++ [e])).
Proof. reflexivity. Qed.

(** One accepted item: its widget and flex value join the lists, and its
    widget, if any, is given the container's app and window. *)
Lemma for_item_in_accepted (i : item) (rest : list item)
    (_content : list (option nat)) (flex : list number) (self : t) :
  accepted i ->
  for_item_in (i :: rest) _content flex self
  = for_item_in rest (_content ++ [widget_of i]) (flex ++ [flex_of i])
      (mkContent (container self) (effects self ++ assignments i)).
Proof.
  intros Hacc. destruct self as [c eff].
  destruct i as [[w|]|[w|] f|n]; simpl in Hacc; try contradiction;
    cbn [for_item_in]; unfold bind, ret, do, modify, assignments;
    try rewrite Hacc; cbn [fst snd widget_of flex_of container effects];
    rewrite <- ?app_assoc, ?app_nil_r; reflexivity.
Qed.

(** One refused item: a [ValueError], with nothing done for it. *)
Lemma for_item_in_refused (i : item) (rest : list item)
    (_content : list (option nat)) (flex : list number) (self : t) :
  ~ accepted i ->
  exists msg, for_item_in (i :: rest) _content flex self = (inl (ValueError msg), self).
Proof.
  intros Hacc.
  destruct i as [w|w f|n]; simpl in Hacc.
  - contradiction Hacc. exact I.
  - destruct (le_zero f) eqn:E; [|contradiction Hacc; reflexivity].
    eexists. cbn [for_item_in]. unfold bind at 1. rewrite E. reflexivity.
  - eexists. reflexivity.
Qed.

Lemma for_item_in_all_accepted (content : list item) :
  forall (_content : list (option nat)) (flex : list number) (self : t),
    Forall accepted content ->
    for_item_in content _content flex self
    = (inr (_content ++ map widget_of content, flex ++ map flex_of content),
       mkContent (container self)
         (effects self ++ concat (map assignments content))).
Proof.
  induction content as [|i content IH]; intros _content flex self Hall.
  - simpl. rewrite !app_nil_r. destruct self; reflexivity.
  - apply Forall_cons in Hall as [Hi Hall].
    rewrite (for_item_in_accepted _ _ _ _ _ Hi), (IH _ _ _ Hall). simpl.
    rewrite <- !app_assoc. reflexivity.
Qed.

Lemma for_item_in_first_refused (good : list item) (bad : item) (rest : list item) :
  forall (_content : list (option nat)) (flex : list number) (self : t),
    Forall accepted good -> ~ accepted bad ->
    exists msg,
      for_item_in (good ++ bad :: rest) _content flex self
      = (inl (ValueError msg),
         mkContent (container self) (effects self ++ concat (map assignments good))).
Proof.
  induction good as [|i good IH]; intros _content flex self Hall Hbad.
  - destruct (for_item_in_refused bad rest _content flex self Hbad) as [msg Hmsg].
    exists msg. rewrite app_nil_l, Hmsg. simpl. rewrite app_nil_r.
    destruct self; reflexivity.
  - apply Forall_cons in Hall as [Hi Hall]. rewrite <- app_comm_cons.
    rewrite (for_item_in_accepted _ _ _ _ _ Hi).
    destruct (IH (_content ++ [widget_of i]) (flex ++ [flex_of i])
                (mkContent (container self) (effects self ++ assignments i)) Hall Hbad)
      as [msg Hmsg].
    exists msg. rewrite Hmsg. simpl. rewrite <- app_assoc. reflexivity.
Qed.

(** X14. Assigning to [content] a sequence that does not have exactly two
    elements (none, one, three or more) raises a [ValueError] and changes
    nothing: the content held, the peer and the children are untouched. *)
Theorem content_setter_wrong_length (content : list item) (self : t) :
  length content <> 2 ->
  content_setter content self
  = (inl (ValueError "SplitContainer content must be a sequence with exactly 2 elements"),
     self).
Proof.
  intros Hlen. unfold content_setter.
  destruct (Nat.eqb_spec (length content) 2); [contradiction|]. reflexivity.
Qed.

(** X15. Assigning two accepted items to [content] succeeds: each widget
    among them is given the container's app and window, in order; the peer
    receives the two panels with their flex values, an item given without a
    flex value counting for 1; then the container is refreshed.  Reading
    [content] back gives the two widgets (or [None]) in order, without the
    flex values. *)
Theorem content_setter_then_getter (content : list item) (self : t) :
  length content = 2 ->
  Forall accepted content ->
  exists self',
    content_setter content self = (inr tt, self')
    /\ effects self'
       = effects self ++ concat (map assignments content)
           ++ [impl_set_content (map widget_of content) (map flex_of content); refreshed]
    /\ SplitContainer._impl (container self') = SplitContainer._impl (container self)
    /\ SplitContainerContent.content self'
       = (inr (map (fun i => to_object (widget_of i)) content), self').
Proof.
  intros Hlen Hall. unfold content_setter. rewrite Hlen. simpl.
  unfold bind at 1. rewrite (for_item_in_all_accepted _ _ _ _ Hall). simpl.
  eexists. split; [reflexivity|]. simpl.
  split; [rewrite <- !app_assoc; reflexivity|]. split; [reflexivity|].
  unfold SplitContainerContent.content. simpl. rewrite map_map. reflexivity.
Qed.

(** X16. Assigning two items of which one is refused (a flex value at or
    below zero, or a tuple that is not a pair) raises a [ValueError]: the
    content held and the peer stay as they were, the peer is not called and
    the container is not refreshed.  But the assignment is not undone: a
    widget that comes before the refused item has already been given the
    container's app and window. *)
Theorem content_setter_refused_item
    (good : list item) (bad : item) (rest : list item) (self : t) :
  length (good ++ bad :: rest) = 2 ->
  Forall accepted good ->
  ~ accepted bad ->
  exists msg,
    content_setter (good ++ bad :: rest) self
    = (inl (ValueError msg),
       mkContent (container self) (effects self ++ concat (map assignments good))).
Proof.
  intros Hlen Hall Hbad. unfold content_setter. rewrite Hlen. simpl.
  destruct (for_item_in_first_refused good bad rest [] [] self Hall Hbad) as [msg Hmsg].
  exists msg. unfold bind at 1. rewrite Hmsg. reflexivity.
Qed.

End Content.

Lemma content_setter_wrong_length_witness :
  SplitContainerContent.content_setter
    [SplitContainerContent.Plain (Some 5)] ActionSamples.panes_world
  = (inl (SplitContainerContent.ValueError
            "SplitContainer content must be a sequence with exactly 2 elements"),
     ActionSamples.panes_world).
Proof.
  apply (content_setter_wrong_length
           [SplitContainerContent.Plain (Some 5)] ActionSamples.panes_world).
  simpl. discriminate.
Defined.

Lemma content_setter_then_getter_witness :
  exists self',
    SplitContainerContent.content_setter
      [SplitContainerContent.Pair (Some 5) (SplitContainerContent.Int 3);
       SplitContainerContent.Plain None] ActionSamples.panes_world = (inr tt, self')
    /\ SplitContainerContent.effects self'
       = [] ++ [SplitContainerContent.app_assigned 5;
                SplitContainerContent.window_assigned 5]
            ++ [SplitContainerContent.impl_set_content [Some 5; None]
                  [SplitContainerContent.Int 3; SplitContainerContent.Int 1];
                SplitContainerContent.refreshed]
    /\ SplitContainer._impl (SplitContainerContent.container self')
       = SplitContainer._impl WidgetSamples.panes
    /\ SplitContainerContent.content self' = (inr [PyRef 5; PyNone], self').
Proof.
  apply (content_setter_then_getter
           [SplitContainerContent.Pair (Some 5) (SplitContainerContent.Int 3);
            SplitContainerContent.Plain None] ActionSamples.panes_world).
  - reflexivity.
  - repeat constructor.
Defined.

Lemma content_setter_refused_item_witness :
  exists msg,
    SplitContainerContent.content_setter
      ([SplitContainerContent.Plain (Some 5)]
         ++ SplitContainerContent.Pair (Some 6) (SplitContainerContent.Int 0) :: [])
      ActionSamples.panes_world
    = (inl (SplitContainerContent.ValueError msg),
       SplitContainerContent.mkContent WidgetSamples.panes
         ([] ++ [SplitContainerContent.app_assigned 5;
                 SplitContainerContent.window_assigned 5])).
Proof.
  apply (content_setter_refused_item
           [SplitContainerContent.Plain (Some 5)]
           (SplitContainerContent.Pair (Some 6) (SplitContainerContent.Int 0)) []
           ActionSamples.panes_world).
  - reflexivity.
  - repeat constructor.
  - simpl. discriminate.
Defined.

End WidgetMore.
